(** * Dashboard.py: catalog and execution state of the project dashboard

    A shallow embedding of the persistence, catalog, search and launch
    functions of [Dashboard.py], with the properties of its specification.

    Conventions of the model.
    - Text is ASCII: [str.lower], [str.strip] and the comparisons of names
      are written out on 7-bit characters.
    - A JSON document on disk is represented by the value [json.loads]
      returns for it ([json.dumps] followed by [json.loads] is the identity
      on such values), or by [Malformed] when it is not a JSON text.
    - Paths are POSIX [pathlib] paths, kept as their tuple of [parts].
    - The directory tree has no symbolic links.
    - Functions of the Python runtime or of the operating system whose
      result the program only passes along ([Path.resolve],
      [Path.expanduser], [shlex.split], [int] on a [str], [subprocess.run],
      [repr]) are fields of a [Platform] record. *)

From Stdlib Require Import List String Ascii ZArith Bool Lia Arith PeanoNat.
From Stdlib Require Import Floats.SpecFloat DecimalString.
From Stdlib Require Import Sorting.Sorted Sorting.Permutation.
Import ListNotations.
Open Scope string_scope.

Set Warnings "-register-all".


(** ** Strings *)

Module Str.

(** [str.isspace] on one ASCII character: TAB, LF, VT, FF, CR, the four
    separators FS, GS, RS, US, and the space. *)
Definition is_space (c : ascii) : bool :=
  let n := nat_of_ascii c in
  (((9 <=? n) && (n <=? 13)) || ((28 <=? n) && (n <=? 32)))%nat.

Definition lower_char (c : ascii) : ascii :=
  let n := nat_of_ascii c in
  if ((65 <=? n) && (n <=? 90))%nat then ascii_of_nat (n + 32) else c.

(** [s.lower()] *)
Fixpoint lower (s : string) : string :=
  match s with
  | EmptyString => EmptyString
  | String c t => String (lower_char c) (lower t)
  end.

Fixpoint lstrip (s : string) : string :=
  match s with
  | EmptyString => EmptyString
  | String c t => if is_space c then lstrip t else s
  end.

Fixpoint rstrip (s : string) : string :=
  match s with
  | EmptyString => EmptyString
  | String c t =>
      match rstrip t with
      | EmptyString => if is_space c then EmptyString else String c EmptyString
      | t' => String c t'
      end
  end.

(** [s.strip()] *)
Definition strip (s : string) : string := rstrip (lstrip s).

(** [s.startswith(p)] *)
Definition startswith (s p : string) : bool := String.prefix p s.

(** [sub in s] for two strings *)
Fixpoint contains (s sub : string) : bool :=
  String.prefix sub s ||
  match s with
  | EmptyString => false
  | String _ t => contains t sub
  end.

(** [s.isspace() or s == ""]: every character is white space *)
Fixpoint blank (s : string) : bool :=
  match s with
  | EmptyString => true
  | String c t => is_space c && blank t
  end.

Definition is_empty (s : string) : bool :=
  match s with EmptyString => true | _ => false end.

(** [sep.join(l)] *)
Fixpoint join (sep : string) (l : list string) : string :=
  match l with
  | [] => ""
  | [x] => x
  | x :: t => x ++ sep ++ join sep t
  end.

(** The characters of a string, each as a one-character string: what
    iterating over a [str] yields. *)
Fixpoint chars (s : string) : list string :=
  match s with
  | EmptyString => []
  | String c t => String c EmptyString :: chars t
  end.

(** [s.split(sep)] for a one-character separator: the pieces between
    the occurrences of [sep], empty pieces included. *)
Fixpoint split_on (sep : ascii) (s : string) : list string :=
  match s with
  | EmptyString => [EmptyString]
  | String c t =>
      if Ascii.eqb c sep then EmptyString :: split_on sep t
      else match split_on sep t with
           | [] => [String c EmptyString]
           | h :: r => String c h :: r
           end
  end.

(** [s.rfind(".")]: the suffix of [s] that starts at its last dot. *)
Fixpoint from_last_dot (s : string) : option string :=
  match s with
  | EmptyString => None
  | String c t =>
      match from_last_dot t with
      | Some r => Some r
      | None => if Ascii.eqb c "."%char then Some s else None
      end
  end.

End Str.

(** ** JSON values, as [json.loads] builds them *)

Inductive json : Type :=
| JNull
| JBool (b : bool)
| JInt (n : Z)
| JFloat (f : spec_float)
| JStr (s : string)
| JArr (items : list json)
| JObj (members : list (string * json)).

(** A Python [dict] with [str] keys, in insertion order. *)
Definition dict := list (string * json).

Module Dict.

(** [d[k]] when present *)
Fixpoint lookup (k : string) (d : dict) : option json :=
  match d with
  | [] => None
  | (k', v) :: t => if String.eqb k' k then Some v else lookup k t
  end.

(** [k in d] *)
Definition has (k : string) (d : dict) : bool :=
  match lookup k d with Some _ => true | None => false end.

(** [d.get(k, default)] *)
Definition get (d : dict) (k : string) (default : json) : json :=
  match lookup k d with Some v => v | None => default end.

(** [d[k] = v]: the value is replaced where the key is, a new key goes
    to the end. *)
Fixpoint set (k : string) (v : json) (d : dict) : dict :=
  match d with
  | [] => [(k, v)]
  | (k', v') :: t =>
      if String.eqb k' k then (k', v) :: t else (k', v') :: set k v t
  end.

(** [d.setdefault(k, v)], for its effect on [d] *)
Definition setdefault (k : string) (v : json) (d : dict) : dict :=
  if has k d then d else (d ++ [(k, v)])%list.

Definition keys (d : dict) : list string := map fst d.

End Dict.

(** ** Exceptions and fallible values *)

Inductive exn : Type :=
| FileNotFoundError
| PermissionError
| NotADirectoryError
| JSONDecodeError
| TypeError
| ValueError
| OverflowError
| AttributeError
| EOFError
| KeyError
| OtherError.

(** [except (FileNotFoundError, PermissionError)] *)
Definition missing_or_denied (e : exn) : bool :=
  match e with
  | FileNotFoundError | PermissionError => true
  | _ => false
  end.

(** [except Exception]: every exception of the model is an [Exception]. *)
Definition any_exception (e : exn) : bool := true.

Inductive res (A : Type) : Type :=
| Ok (a : A)
| Err (e : exn).

Arguments Ok {A} a.
Arguments Err {A} e.

(** ** Python operations on JSON values *)

Module Py.

Definition is_str (p : string) (x : json) : bool :=
  match x with
  | JStr s => String.eqb s p
  | _ => false
  end.

(** [bool(x)] *)
Definition truthy (x : json) : bool :=
  match x with
  | JNull => false
  | JBool b => b
  | JInt n => negb (Z.eqb n 0)
  | JFloat (S754_zero _) => false
  | JFloat _ => true
  | JStr s => negb (Str.is_empty s)
  | JArr l => match l with [] => false | _ => true end
  | JObj d => match d with [] => false | _ => true end
  end.

(** [int(x)] of a float: truncation towards zero. *)
Definition int_of_float (f : spec_float) : res Z :=
  match f with
  | S754_zero _ => Ok 0%Z
  | S754_infinity _ => Err OverflowError
  | S754_nan => Err ValueError
  | S754_finite s m e =>
      let a := match e with
               | Z0 => Zpos m
               | Zpos p => (Zpos m * 2 ^ Zpos p)%Z
               | Zneg p => (Zpos m / 2 ^ Zpos p)%Z
               end in
      Ok (if s then (- a)%Z else a)
  end.

(** [int(x)]; [int] of a [str] is the platform's [int_of_str]. *)
Definition int (int_of_str : string -> option Z) (x : json) : res Z :=
  match x with
  | JInt n => Ok n
  | JBool b => Ok (if b then 1%Z else 0%Z)
  | JFloat f => int_of_float f
  | JStr s => match int_of_str s with
              | Some n => Ok n
              | None => Err ValueError
              end
  | JNull | JArr _ | JObj _ => Err TypeError
  end.

(** [for x in c]: the values iteration yields. *)
Definition iter (c : json) : res (list json) :=
  match c with
  | JArr l => Ok l
  | JStr s => Ok (map JStr (Str.chars s))
  | JObj d => Ok (map JStr (Dict.keys d))
  | JNull | JBool _ | JInt _ | JFloat _ => Err TypeError
  end.

(** [p in c] for a [str] [p]. *)
Definition contains (p : string) (c : json) : res bool :=
  match c with
  | JArr l => Ok (existsb (is_str p) l)
  | JStr s => Ok (Str.contains s p)
  | JObj d => Ok (Dict.has p d)
  | JNull | JBool _ | JInt _ | JFloat _ => Err TypeError
  end.

Definition hashable (x : json) : bool :=
  match x with
  | JArr _ | JObj _ => false
  | _ => true
  end.

(** [set(c)]: fails on a value that is not iterable or on an element
    that is not hashable.  The set is kept as the list of its
    members. *)
Definition set (c : json) : res (list json) :=
  match iter c with
  | Ok l => if forallb hashable l then Ok l else Err TypeError
  | Err e => Err e
  end.

(** [l[:n]] *)
Definition slice_to {A : Type} (n : Z) (l : list A) : list A :=
  if (0 <=? n)%Z then firstn (Z.to_nat n) l
  else firstn (List.length l - Z.to_nat (- n)) l.

End Py.

(** ** Paths: a [pathlib.PurePosixPath] as its tuple of parts *)

Definition path := list string.

Module Path.

Definition is_absolute (p : path) : bool :=
  match p with
  | a :: _ => String.eqb a "/"
  | [] => false
  end.

(** [p.name]: the last part, empty for the root and for the empty path. *)
Definition name (p : path) : string :=
  match p with
  | [a] => if String.eqb a "/" then "" else a
  | _ => last p ""
  end.

(** [p.parent] *)
Definition parent (p : path) : path :=
  match p with
  | [a] => if String.eqb a "/" then p else []
  | _ => removelast p
  end.

(** [p.suffix]: the part of the name from its last dot on, when that dot
    is neither the first nor the last character of the name. *)
Definition suffix (p : path) : string :=
  let n := name p in
  match Str.from_last_dot n with
  | Some r =>
      if (String.length r <? String.length n)%nat && (1 <? String.length r)%nat
      then r else ""
  | None => ""
  end.

(** [Path(s)]: the components between slashes, without the empty ones
    and the single dots, behind the root when [s] starts with a slash. *)
Definition of_string (s : string) : path :=
  let pieces :=
    filter (fun x => negb (Str.is_empty x) && negb (String.eqb x "."))
           (Str.split_on "/"%char s) in
  if Str.startswith s "/" then "/" :: pieces else pieces.

(** [str(p)] *)
Definition to_string (p : path) : string :=
  match p with
  | [] => "."
  | a :: rest =>
      if String.eqb a "/" then "/" ++ Str.join "/" rest else Str.join "/" p
  end.

(** [p / s] for a string [s] *)
Definition join (p : path) (s : string) : path :=
  let q := of_string s in
  if is_absolute q then q else (p ++ q)%list.

(** [p / name] for an entry of the directory [p] *)
Definition child (p : path) (entry : string) : path := (p ++ [entry])%list.

End Path.

(** ** The directory tree *)

(** A directory is [open] when the process may list and traverse it. *)
Inductive node : Type :=
| File
| Special
| Dir (open : bool) (entries : list (string * node)).

Module Fs.

Fixpoint find_entry (name : string) (entries : list (string * node)) : option node :=
  match entries with
  | [] => None
  | (n, x) :: t => if String.eqb n name then Some x else find_entry name t
  end.

(** Path resolution of the operating system, from the node [cur] whose
    ancestors are [above] (nearest first). *)
Fixpoint walk (above : list node) (cur : node) (parts : list string) : res node :=
  match parts with
  | [] => Ok cur
  | part :: rest =>
      match cur with
      | Dir true entries =>
          if String.eqb part ".." then
            match above with
            | [] => walk [] cur rest
            | up :: above' => walk above' up rest
            end
          else
            match find_entry part entries with
            | Some n => walk (cur :: above) n rest
            | None => Err FileNotFoundError
            end
      | Dir false _ => Err PermissionError
      | File | Special => Err NotADirectoryError
      end
  end.

(** [os.stat(p)] in the tree [root], relative paths taken from [cwd]. *)
Definition stat (root : node) (cwd : path) (p : path) : res node :=
  if Path.is_absolute p then walk [] root (tl p)
  else walk [] root (tl cwd ++ p)%list.

(** The names [fnmatch] accepts for the pattern [*.py]. *)
Definition matches_py (name : string) : bool :=
  match Str.from_last_dot name with
  | Some r => String.eqb r ".py"
  | None => false
  end.

Definition is_dir_node (n : node) : bool :=
  match n with Dir _ _ => true | _ => false end.

(** The paths [rglob("*.py")] yields below the node [n] found at
    [prefix]: the matching entries of a directory, then those of its
    subdirectories in turn.  A directory that is not open yields
    nothing. *)
Fixpoint rglob_node (prefix : path) (n : node) : list path :=
  match n with
  | Dir true entries =>
      (map (fun e => Path.child prefix (fst e))
           (filter (fun e => matches_py (fst e)) entries)
       ++
       flat_map (fun e =>
                   if is_dir_node (snd e)
                   then rglob_node (Path.child prefix (fst e)) (snd e)
                   else [])
                entries)%list
  | _ => []
  end.

End Fs.

(** ** The world the program runs in *)

(** The text of a file: [Dumped j] is a text [json.loads] reads as [j]. *)
Inductive text : Type :=
| Dumped (j : json)
| Malformed.

Inductive file : Type :=
| Absent (creatable : bool)
| Present (readable writable : bool) (content : text).

Inductive event : Type :=
| Printed (s : string)
| Asked (prompt : string)
| Cleared.

Record world : Type := mkWorld {
  config_file : file;                 (* script_dir / dashboard_config.json *)
  state_file : file;                  (* script_dir / dashboard_state.json *)
  journal : list (path * string);     (* lines appended to log files *)
  journal_writable : bool;
  root : node;
  cwd : path;
  clock : string;                     (* what now_str() returns *)
  stdin : list string;                (* the lines input() will read *)
  stdout : list event
}.

(** What the program keeps between runs. *)
Definition persisted (w : world) : file * file * list (path * string) * node :=
  (config_file w, state_file w, journal w, root w).

Inductive doc : Type := ConfigDoc | StateDoc.

Definition get_doc (d : doc) (w : world) : file :=
  match d with
  | ConfigDoc => config_file w
  | StateDoc => state_file w
  end.

Definition set_doc (d : doc) (f : file) (w : world) : world :=
  match d with
  | ConfigDoc =>
      mkWorld f (state_file w) (journal w) (journal_writable w) (root w)
              (cwd w) (clock w) (stdin w) (stdout w)
  | StateDoc =>
      mkWorld (config_file w) f (journal w) (journal_writable w) (root w)
              (cwd w) (clock w) (stdin w) (stdout w)
  end.

(** ** Computations: a state and exception monad over the world *)

Inductive outcome (A : Type) : Type :=
| Ret (a : A) (w : world)
| Raise (e : exn) (w : world).

Arguments Ret {A} a w.
Arguments Raise {A} e w.

Definition M (A : Type) : Type := world -> outcome A.

Definition ret {A : Type} (a : A) : M A := fun w => Ret a w.

Definition raise {A : Type} (e : exn) : M A := fun w => Raise e w.

Definition bind {A B : Type} (m : M A) (k : A -> M B) : M B :=
  fun w => match m w with
           | Ret a w' => k a w'
           | Raise e w' => Raise e w'
           end.

Notation "x <- m ;; k" := (bind m (fun x => k))
  (at level 61, m at next level, right associativity).
Notation "m ;;; k" := (bind m (fun _ => k))
  (at level 61, right associativity).

(** [try: m except <classes>: handler] *)
Definition try_except {A : Type} (m : M A) (classes : exn -> bool)
    (handler : exn -> M A) : M A :=
  fun w => match m w with
           | Ret a w' => Ret a w'
           | Raise e w' => if classes e then handler e w' else Raise e w'
           end.

Definition lift {A : Type} (r : res A) : M A :=
  match r with
  | Ok a => ret a
  | Err e => raise e
  end.

Definition gets {A : Type} (f : world -> A) : M A := fun w => Ret (f w) w.

Definition final_world {A : Type} (o : outcome A) : world :=
  match o with
  | Ret _ w => w
  | Raise _ w => w
  end.


Fixpoint filterM {A : Type} (keep : A -> M bool) (l : list A) : M (list A) :=
  match l with
  | [] => ret []
  | x :: t =>
      b <- keep x ;;
      r <- filterM keep t ;;
      ret (if b then x :: r else r)
  end.

Fixpoint forM_ {A : Type} (l : list A) (body : A -> M unit) : M unit :=
  match l with
  | [] => ret tt
  | x :: t => body x ;;; forM_ t body
  end.

(** ** Primitive effects *)

Module Io.

(** [p.exists()] for one of the two documents *)
Definition file_exists (d : doc) : M bool :=
  gets (fun w => match get_doc d w with
                 | Absent _ => false
                 | Present _ _ _ => true
                 end).

(** [p.read_text(encoding="utf-8")] *)
Definition read_text (d : doc) : M text :=
  fun w => match get_doc d w with
           | Absent _ => Raise FileNotFoundError w
           | Present false _ _ => Raise PermissionError w
           | Present true _ t => Ret t w
           end.

(** [p.write_text(t, encoding="utf-8")] *)
Definition write_text (d : doc) (t : text) : M unit :=
  fun w => match get_doc d w with
           | Absent true => Ret tt (set_doc d (Present true true t) w)
           | Absent false => Raise PermissionError w
           | Present r true _ => Ret tt (set_doc d (Present r true t) w)
           | Present _ false _ => Raise PermissionError w
           end.

Definition json_loads (t : text) : res json :=
  match t with
  | Dumped j => Ok j
  | Malformed => Err JSONDecodeError
  end.

Definition json_dumps (j : json) : text := Dumped j.

Definition with_console (i : list string) (o : list event) (w : world) : world :=
  mkWorld (config_file w) (state_file w) (journal w) (journal_writable w)
          (root w) (cwd w) (clock w) i o.

Definition with_journal (j : list (path * string)) (w : world) : world :=
  mkWorld (config_file w) (state_file w) j (journal_writable w)
          (root w) (cwd w) (clock w) (stdin w) (stdout w).

Definition emit (e : event) : M unit :=
  fun w => Ret tt (with_console (stdin w) (stdout w ++ [e]) w).

(** [print(s)] *)
Definition print (s : string) : M unit := emit (Printed s).

(** [input(prompt)]: end of input raises [EOFError]. *)
Definition input (prompt : string) : M string :=
  fun w => match stdin w with
           | [] => Raise EOFError (with_console [] (stdout w ++ [Asked prompt]) w)
           | l :: rest => Ret l (with_console rest (stdout w ++ [Asked prompt]) w)
           end.

(** Opening [log_path] for appending and writing one line. *)
Definition append_line (log_path : path) (line : string) : M unit :=
  fun w => if journal_writable w
           then Ret tt (with_journal (journal w ++ [(log_path, line)]) w)
           else Raise PermissionError w.

(** [p.is_file()], [p.is_dir()], [p.exists()]: a missing path answers
    [False], a refused one raises. *)
Definition stat_is (test : node -> bool) (p : path) : M bool :=
  fun w => match Fs.stat (root w) (cwd w) p with
           | Ok n => Ret (test n) w
           | Err PermissionError => Raise PermissionError w
           | Err _ => Ret false w
           end.

Definition is_file : path -> M bool :=
  stat_is (fun n => match n with File => true | _ => false end).


Definition exists_ : path -> M bool := stat_is (fun _ => true).

(** [p.iterdir()] *)
Definition iterdir (p : path) : M (list path) :=
  fun w => match Fs.stat (root w) (cwd w) p with
           | Ok (Dir true entries) => Ret (map (fun e => Path.child p (fst e)) entries) w
           | Ok (Dir false _) => Raise PermissionError w
           | Ok _ => Raise NotADirectoryError w
           | Err e => Raise e w
           end.

(** [p.rglob("*.py")]: nothing when [p] is not a directory. *)
Definition rglob_py (p : path) : M (list path) :=
  fun w => match Fs.stat (root w) (cwd w) p with
           | Ok n => Ret (Fs.rglob_node p n) w
           | Err PermissionError => Raise PermissionError w
           | Err _ => Ret [] w
           end.

End Io.

(** ** The platform *)

Record Platform : Type := mkPlatform {
  script_dir : path;                         (* Path(__file__).resolve().parent *)
  resolve : path -> path;                    (* Path.resolve *)
  expanduser : path -> path;                 (* Path.expanduser *)
  int_of_str : string -> option Z;           (* int(s), None for ValueError *)
  shlex_split : string -> option (list string);  (* None for ValueError *)
  str_split : string -> list string;         (* s.split() *)
  repr_list : list string -> string;         (* repr of a list of str *)
  executable : string;                       (* sys.executable *)
  describe : exn -> string;                  (* str(e) *)
  subprocess_run : list string -> string -> M Z   (* the return code *)
}.

Definition CONFIG_FILE : string := "dashboard_config.json".
Definition STATE_FILE : string := "dashboard_state.json".

Definition nl : string := String (ascii_of_nat 10) EmptyString.

Definition rule60 : string :=
  "------------------------------------------------------------".

(** [sorted(l, key=lambda x: x.name.lower())]: a stable insertion sort. *)
Fixpoint insert_by_key (key : path -> string) (x : path) (l : list path) : list path :=
  match l with
  | [] => [x]
  | y :: t =>
      if String.leb (key x) (key y) then x :: l
      else y :: insert_by_key key x t
  end.

Definition sorted_by_key (key : path -> string) (l : list path) : list path :=
  fold_right (insert_by_key key) [] l.

Definition name_lower (p : path) : string := Str.lower (Path.name p).

(** ** The program *)

Section Program.

Variable P : Platform.

(** [pause(msg)] *)
Definition pause (msg : string) : M unit :=
  Io.input msg ;;; ret tt.

Definition pause_msg : string := nl ++ "Presiona Enter para continuar...".

Definition clear_screen : M unit := Io.emit Cleared.

(** [is_python_file(p)] *)
Definition is_python_file (p : path) : M bool :=
  f <- Io.is_file p ;;
  ret (f && String.eqb (Str.lower (Path.suffix p)) ".py"
         && negb (Str.startswith (Path.name p) "__")).

(** *** Configuration *)

Definition default_config (base_dir : path) : dict :=
  [ ("app_name", JStr "Dashboard de Proyectos");
    ("base_dir", JStr (Path.to_string base_dir));
    ("units", JObj [("1", JStr "Unidad 1"); ("2", JStr "Unidad 2")]);
    ("show_hidden_folders", JBool false);
    ("preferred_editor", JStr "code -n");
    ("log_file", JStr "dashboard.log");
    ("confirm_before_run", JBool true);
    ("code_preview_lines", JInt 200);
    ("ignore_dirs",
      JArr [JStr ".venv"; JStr "venv"; JStr "__pycache__"; JStr ".git";
            JStr ".pytest_cache"; JStr ".mypy_cache"; JStr ".idea";
            JStr ".vscode"]);
    ("recent_limit", JInt 15);
    ("favorites_enabled", JBool true);
    ("ask_args_before_run", JBool true);
    ("open_unit_folder_shortcut", JBool true) ].

(** [cfg["base_dir"]] on whatever [json.loads] returned: only a [dict]
    is indexed by a [str]. *)
Definition getitem (cfg : json) (k : string) : res json :=
  match cfg with
  | JObj d => match Dict.lookup k d with
              | Some v => Ok v
              | None => Err KeyError
              end
  | _ => Err TypeError
  end.

(** [cfg["base_dir"] = v] *)
Definition setitem (cfg : json) (k : string) (v : json) : res json :=
  match cfg with
  | JObj d => Ok (JObj (Dict.set k v d))
  | _ => Err TypeError
  end.

(** [Path(v)] *)
Definition to_path (v : json) : res path :=
  match v with
  | JStr s => Ok (Path.of_string s)
  | _ => Err TypeError
  end.

(** The receiver of [cfg.get] and [cfg.setdefault] has to be a
    [dict]. *)
Definition as_dict (cfg : json) : res dict :=
  match cfg with
  | JObj d => Ok d
  | _ => Err AttributeError
  end.

(** [for k, v in defaults.items(): cfg.setdefault(k, v)] *)
Definition migrate (defaults cfg : dict) : dict :=
  fold_left (fun c kv => Dict.setdefault (fst kv) (snd kv) c) defaults cfg.

Definition load_or_create_config : M dict :=
  let config_dir := script_dir P in
  present <- Io.file_exists ConfigDoc ;;
  if negb present then
    let cfg := default_config config_dir in
    Io.write_text ConfigDoc (Io.json_dumps (JObj cfg)) ;;;
    ret cfg
  else
    parsed <- try_except
                (t <- Io.read_text ConfigDoc ;;
                 j <- lift (Io.json_loads t) ;;
                 ret (Some j))
                any_exception
                (fun _ => ret None) ;;
    match parsed with
    | None =>
        let cfg := default_config config_dir in
        Io.write_text ConfigDoc (Io.json_dumps (JObj cfg)) ;;;
        ret cfg
    | Some cfg =>
        (* Normaliza base_dir a absoluto *)
        has <- lift (Py.contains "base_dir" cfg) ;;
        cfg <- (if has then
                  v <- lift (getitem cfg "base_dir") ;;
                  p <- lift (to_path v) ;;
                  lift (setitem cfg "base_dir"
                          (JStr (Path.to_string (resolve P (expanduser P p)))))
                else ret cfg) ;;
        (* Migra claves faltantes *)
        d <- lift (as_dict cfg) ;;
        base <- match Dict.lookup "base_dir" d with
                | Some v => lift (to_path v)
                | None => ret config_dir
                end ;;
        let d := migrate (default_config base) d in
        (* Guarda si hubo migracion *)
        try_except (Io.write_text ConfigDoc (Io.json_dumps (JObj d)))
                   any_exception (fun _ => ret tt) ;;;
        ret d
    end.

(** *** Persistent state *)

Definition empty_state : dict := [("recent", JArr []); ("favorites", JArr [])].

Definition load_state : M dict :=
  present <- Io.file_exists StateDoc ;;
  if negb present then ret empty_state
  else
    try_except
      (t <- Io.read_text StateDoc ;;
       data <- lift (Io.json_loads t) ;;
       match data with
       | JObj d =>
           ret (Dict.setdefault "favorites" (JArr [])
                  (Dict.setdefault "recent" (JArr []) d))
       | _ => ret empty_state
       end)
      any_exception
      (fun _ => ret empty_state).

Definition save_state (state : dict) : M unit :=
  try_except (Io.write_text StateDoc (Io.json_dumps (JObj state)))
             any_exception (fun _ => ret tt).

(** [str(script_path.resolve())] *)
Definition resolved (script_path : path) : string :=
  Path.to_string (resolve P script_path).

Definition add_recent (cfg : dict) (script_path : path) : M unit :=
  state <- load_state ;;
  let p := resolved script_path in
  stored <- lift (Py.iter (Dict.get state "recent" (JArr []))) ;;
  let recent := filter (fun x => negb (Py.is_str p x)) stored in
  let recent := JStr p :: recent in
  limit <- lift (Py.int (int_of_str P) (Dict.get cfg "recent_limit" (JInt 15))) ;;
  let state := Dict.set "recent" (JArr (Py.slice_to limit recent)) state in
  save_state state.

(** [favs.append(p)] *)
Definition append (favs : json) (x : json) : res json :=
  match favs with
  | JArr l => Ok (JArr (l ++ [x]))
  | _ => Err AttributeError
  end.

Definition toggle_favorite (script_path : path) : M bool :=
  state <- load_state ;;
  let p := resolved script_path in
  let favs := Dict.get state "favorites" (JArr []) in
  member <- lift (Py.contains p favs) ;;
  if member then
    items <- lift (Py.iter favs) ;;
    let favs := JArr (filter (fun x => negb (Py.is_str p x)) items) in
    save_state (Dict.set "favorites" favs state) ;;;
    ret false
  else
    favs <- lift (append favs (JStr p)) ;;
    save_state (Dict.set "favorites" favs state) ;;;
    ret true.

Definition is_favorite (script_path : path) : M bool :=
  state <- load_state ;;
  members <- lift (Py.set (Dict.get state "favorites" (JArr []))) ;;
  ret (existsb (Py.is_str (resolved script_path)) members).

(** *** Logging *)

Definition log_event (cfg : dict) (message : string) : M unit :=
  try_except
    (file_name <- lift (match Dict.get cfg "log_file" (JStr "dashboard.log") with
                        | JStr s => Ok s
                        | _ => Err TypeError
                        end) ;;
     let log_path := resolve P (Path.join (script_dir P) file_name) in
     now <- gets clock ;;
     Io.append_line log_path ("[" ++ now ++ "] " ++ message ++ nl))
    any_exception
    (fun _ => ret tt).

(** *** Running a script *)

(** The function returns [None] on every path; the model returns which
    of its exits was taken. *)
Inductive run_result : Type :=
| Cancelled
| Completed (code : Z)
| LaunchFailed (e : exn).

Definition str_of_int (n : Z) : string := NilZero.string_of_int (Z.to_int n).

Definition run_script (cfg : dict) (script_path : path) : M run_result :=
  let name := Path.name script_path in
  go <- (if Py.truthy (Dict.get cfg "confirm_before_run" (JBool true)) then
           ans <- Io.input ("¿Ejecutar '" ++ name ++ "'? (s/n) > ") ;;
           ret (String.eqb (Str.lower (Str.strip ans)) "s")
         else ret true) ;;
  if negb go then
    Io.print "Ejecución cancelada." ;;;
    pause pause_msg ;;;
    ret Cancelled
  else
    args <- (if Py.truthy (Dict.get cfg "ask_args_before_run" (JBool true)) then
               raw <- Io.input "Argumentos (opcional, Enter para ninguno) > " ;;
               let raw := Str.strip raw in
               if Str.is_empty raw then ret []
               else ret (match shlex_split P raw with
                         | Some a => a
                         | None => str_split P raw     (* fallback básico *)
                         end)
             else ret []) ;;
    clear_screen ;;;
    Io.print ("Ejecutando: " ++ name) ;;;
    Io.print ("Ruta: " ++ Path.to_string script_path) ;;;
    (match args with
     | [] => ret tt
     | _ => Io.print ("Args: " ++ repr_list P args)
     end) ;;;
    Io.print rule60 ;;;
    log_event cfg ("RUN " ++ Path.to_string script_path
                   ++ " args=" ++ repr_list P args) ;;;
    add_recent cfg script_path ;;;
    result <- try_except
                (code <- subprocess_run P
                           (executable P :: Path.to_string script_path :: args)
                           (Path.to_string (Path.parent script_path)) ;;
                 Io.print (nl ++ rule60) ;;;
                 Io.print ("Finalizó con código: " ++ str_of_int code) ;;;
                 ret (Completed code))
                any_exception
                (fun e =>
                   Io.print ("Error al ejecutar: " ++ describe P e) ;;;
                   ret (LaunchFailed e)) ;;
    pause pause_msg ;;;
    ret result.

(** *** Browsing folders *)


Definition list_scripts (folder : path) : M (list path) :=
  found <- try_except
             (entries <- Io.iterdir folder ;;
              scripts <- filterM is_python_file entries ;;
              ret (Some scripts))
             missing_or_denied
             (fun _ => ret None) ;;
  match found with
  | None => ret []
  | Some scripts => ret (sorted_by_key name_lower scripts)
  end.

(** [any(part in ignore_dirs for part in p.parts)] *)
Definition in_ignored (ignore_dirs : list json) (p : path) : bool :=
  existsb (fun part => existsb (Py.is_str part) ignore_dirs) p.

(** The test one candidate of [search_scripts] has to pass. *)
Definition search_hit (ignore_dirs : list json) (query : string) (p : path) : M bool :=
  f <- Io.is_file p ;;
  ret (f
       && negb (Str.startswith (Path.name p) "__")
       && negb (in_ignored ignore_dirs p)
       && Str.contains (name_lower p) query).

Definition search_scripts (cfg : dict) (unit_path : path) (query : string)
  : M (list path) :=
  let query := Str.strip (Str.lower query) in
  ignore_dirs <- lift (Py.set (Dict.get cfg "ignore_dirs" (JArr []))) ;;
  found <- try_except
             (candidates <- Io.rglob_py unit_path ;;
              hits <- filterM (search_hit ignore_dirs query) candidates ;;
              ret (Some hits))
             any_exception
             (fun _ => ret None) ;;
  match found with
  | None => ret []
  | Some hits => ret (sorted_by_key name_lower hits)
  end.

(** The search entry of [main_menu], from the prompt for the query to
    the call of [search_scripts]; [None] stands for the [continue] taken
    on an empty query. *)
Definition main_menu_search (cfg : dict) (unit_path : path)
  : M (option (list path)) :=
  q <- Io.input "Buscar (parte del nombre del .py) > " ;;
  let q := Str.strip q in
  if Str.is_empty q then ret None
  else
    hits <- search_scripts cfg unit_path q ;;
    ret (Some hits).

(** *** Recent scripts and favourites *)

(** The loop of [get_recent_scripts] and [get_favorite_scripts]. *)
Fixpoint existing_scripts (stored : list json) : M (list path) :=
  match stored with
  | [] => ret []
  | p :: t =>
      pp <- lift (to_path p) ;;
      e <- Io.exists_ pp ;;
      keep <- (if e then is_python_file pp else ret false) ;;
      out <- existing_scripts t ;;
      ret (if keep then pp :: out else out)
  end.

Definition get_recent_scripts (cfg : dict) : M (list path) :=
  state <- load_state ;;
  stored <- lift (Py.iter (Dict.get state "recent" (JArr []))) ;;
  out <- existing_scripts stored ;;
  limit <- lift (Py.int (int_of_str P) (Dict.get cfg "recent_limit" (JInt 15))) ;;
  ret (Py.slice_to limit out).

Definition get_favorite_scripts : M (list path) :=
  state <- load_state ;;
  stored <- lift (Py.iter (Dict.get state "favorites" (JArr []))) ;;
  out <- existing_scripts stored ;;
  ret (sorted_by_key name_lower out).

End Program.

(** ** Observations used by the statements *)

(** The state [load_state] returns in the world [w]. *)
Definition state_of (w : world) : dict :=
  match load_state w with
  | Ret st _ => st
  | Raise _ _ => empty_state
  end.

Definition recent_of (w : world) : option json :=
  Dict.lookup "recent" (state_of w).

Definition favorites_of (w : world) : option json :=
  Dict.lookup "favorites" (state_of w).

(** A document the process can both read back and write: it is absent
    from a directory where it can be created, or present with both
    permissions. *)
Definition usable (f : file) : bool :=
  match f with
  | Absent creatable => creatable
  | Present readable writable _ => readable && writable
  end.

(** How often the string [p] occurs in a JSON array. *)
Definition count_str (p : string) (l : list json) : nat :=
  List.length (filter (Py.is_str p) l).

(** [x != p] *)
Definition other (p : string) (x : json) : bool := negb (Py.is_str p x).

(** The list [add_recent] stores: [p] in front of the other entries, cut
    to [n] entries. *)
Definition bump (n : nat) (p : string) (r : list json) : list json :=
  firstn n (JStr p :: filter (other p) r).

(** The list after [add_recent] for each path of [ps] in turn. *)
Definition bump_all (n : nat) (ps : list string) (r : list json) : list json :=
  fold_left (fun acc p => bump n p acc) ps r.

(** [pp.exists() and is_python_file(pp)] as a function of the tree. *)
Definition is_script_at (w : world) (p : path) : bool :=
  match Fs.stat (root w) (cwd w) p with
  | Ok File =>
      String.eqb (Str.lower (Path.suffix p)) ".py"
      && negb (Str.startswith (Path.name p) "__")
  | _ => false
  end.

(** The stored strings as paths. *)
Definition stored_paths (l : list string) : list path := map Path.of_string l.

(** [os.stat(p)] is refused. *)
Definition refused (w : world) (p : path) : bool :=
  match Fs.stat (root w) (cwd w) p with
  | Err PermissionError => true
  | _ => false
  end.

(** [p] is a regular file. *)
Definition is_file_at (w : world) (p : path) : bool :=
  match Fs.stat (root w) (cwd w) p with
  | Ok File => true
  | _ => false
  end.

(** The three tests of [search_scripts] that do not look at the query. *)
Definition eligible (w : world) (ignore_dirs : list json) (p : path) : bool :=
  is_file_at w p
  && negb (Str.startswith (Path.name p) "__")
  && negb (in_ignored ignore_dirs p).

(** What [unit_path.rglob("*.py")] yields in [w]. *)
Definition candidates (w : world) (unit_path : path) : list path :=
  match Fs.stat (root w) (cwd w) unit_path with
  | Ok n => Fs.rglob_node unit_path n
  | Err _ => []
  end.

(** The eligible candidates; none when the loop is left by an
    exception. *)
Definition listing (w : world) (ignore_dirs : list json) (unit_path : path)
  : list path :=
  if existsb (refused w) (candidates w unit_path) then []
  else filter (eligible w ignore_dirs) (candidates w unit_path).

(** [query in p.name.lower()] *)
Definition name_has (query : string) (p : path) : bool :=
  Str.contains (name_lower p) query.

(** ** The specification's sentences, as formulas *)



(** ** A small installation *)

Module Sample.

Definition home : path := ["/"; "home"; "u"].

Definition platform : Platform :=
  mkPlatform
    ["/"; "opt"; "dashboard"]
    (fun p => if Path.is_absolute p then p else (home ++ p)%list)
    (fun p => p)
    (fun _ => None)
    (fun s => Some [s])
    (fun s => [s])
    (Str.join ", ")
    "python3"
    (fun _ => "error")
    (fun _ _ => ret 0%Z).

(** [/home/u/Unidad 1] holds [a.py], [b.py], [__init__.py],
    [.venv/c.py] and [.venv/lib/d.py]. *)
Definition tree : node :=
  Dir true
    [("home",
      Dir true
        [("u",
          Dir true
            [("Unidad 1",
              Dir true
                [("a.py", File); ("b.py", File); ("__init__.py", File);
                 (".venv",
                  Dir true [("c.py", File);
                            ("lib", Dir true [("d.py", File)])])])])])].

Definition unit1 : path := ["/"; "home"; "u"; "Unidad 1"].

(** A unit below an ignored directory. *)
Definition unit_in_venv : path :=
  ["/"; "home"; "u"; "Unidad 1"; ".venv"; "lib"].

Definition default_ignore : list json :=
  [JStr ".venv"; JStr "venv"; JStr "__pycache__"; JStr ".git";
   JStr ".pytest_cache"; JStr ".mypy_cache"; JStr ".idea"; JStr ".vscode"].

Definition start : world :=
  mkWorld (Absent true) (Absent true) [] true tree home
          "2026-01-01 00:00:00" ["n"; ""] [].

Definition cfg : dict := default_config home.


(** Three stored recent scripts, the first of which is gone. *)
Definition three_recent : world :=
  set_doc StateDoc
    (Present true true
       (Dumped (JObj [("recent",
                       JArr [JStr "/home/u/Unidad 1/gone.py";
                             JStr "/home/u/Unidad 1/a.py";
                             JStr "/home/u/Unidad 1/b.py"]);
                      ("favorites", JArr [])])))
    start.

End Sample.

(** ** The rest of the program *)

(** What the program asks of the desktop: the openers that
    [open_in_editor] and [open_folder] start, and the text of a script
    for [show_code_preview]. *)
Record Desktop : Type := mkDesktop {
  os_nt : bool;                       (* os.name == "nt" *)
  os_darwin : bool;                   (* sys.platform == "darwin" *)
  startfile : string -> M unit;       (* os.startfile *)
  popen : list string -> M unit;      (* subprocess.Popen(cmd), the handle dropped *)
  read_text_of : path -> M string;    (* safe_read_text *)
  splitlines : string -> list string  (* str.splitlines *)
}.

(** The parts of [p] behind those of [b], when [p] starts with them. *)
Fixpoint strip_prefix (p b : path) : res path :=
  match b with
  | [] => Ok p
  | y :: b' =>
      match p with
      | x :: p' => if String.eqb x y then strip_prefix p' b' else Err ValueError
      | [] => Err ValueError
      end
  end.

(** [p.relative_to(b)]: both absolute or both relative, and [b] an
    ancestor of [p] or [p] itself. *)
Definition relative_to (p b : path) : res path :=
  if Bool.eqb (Path.is_absolute p) (Path.is_absolute b) then strip_prefix p b
  else Err ValueError.

Section Desk.

Variable P : Platform.
Variable D : Desktop.

(** [relpath_str(path, base)] *)
Definition relpath_str (p base : path) : string :=
  match relative_to (resolve P p) (resolve P base) with
  | Ok r => Path.to_string r
  | Err _ => Path.to_string p
  end.

(** [(cfg.get("preferred_editor") or "").strip()] *)
Definition editor_command (cfg : dict) : res string :=
  let v := Dict.get cfg "preferred_editor" JNull in
  if Py.truthy v then
    match v with
    | JStr s => Ok (Str.strip s)
    | _ => Err AttributeError
    end
  else Ok (Str.strip "").

Definition open_in_editor (cfg : dict) (script_path : path) : M unit :=
  editor <- lift (editor_command cfg) ;;
  log_event P cfg ("OPEN_EDITOR " ++ Path.to_string script_path) ;;;
  try_except
    (if Str.is_empty editor then
       if os_nt D then startfile D (Path.to_string script_path)
       else popen D ["xdg-open"; Path.to_string script_path]
     else
       parts <- lift (match shlex_split P editor with
                      | Some l => Ok l
                      | None => Err ValueError
                      end) ;;
       popen D (parts ++ [Path.to_string script_path]))
    any_exception
    (fun e =>
       Io.print ("No se pudo abrir el editor: " ++ describe P e) ;;;
       pause pause_msg).

Definition open_folder (p : path) : M unit :=
  try_except
    (if os_nt D then startfile D (Path.to_string p)
     else if os_darwin D then popen D ["open"; Path.to_string p]
     else popen D ["xdg-open"; Path.to_string p])
    any_exception
    (fun _ => ret tt).

(** *** Showing the code *)

Definition more_prompt : string :=
  nl ++ "(Enter para seguir / 'q' para salir) > ".

(** The paging loop of [show_code_preview], from the index [start]; one
    unit of [fuel] per turn of the loop. *)
Fixpoint preview_pages (fuel : nat) (lines : list string) (start : nat) : M unit :=
  match fuel with
  | O => ret tt
  | S fuel' =>
      if (start <? List.length lines)%nat then
        Io.print (Str.join nl (firstn 60 (skipn start lines))) ;;;
        let start := start + 60 in
        if (List.length lines <=? start)%nat then ret tt
        else
          resp <- Io.input more_prompt ;;
          if String.eqb (Str.lower (Str.strip resp)) "q" then ret tt
          else preview_pages fuel' lines start
      else ret tt
  end.

(** What the two handlers of [show_code_preview] print for an
    exception. *)
Definition preview_error (e : exn) : string :=
  match e with
  | FileNotFoundError => "El archivo no se encontró."
  | _ => "Ocurrió un error al leer el archivo: " ++ describe P e
  end.

(** The [try] statement of [show_code_preview]. *)
Definition preview_text (cfg : dict) (script_path : path) : M unit :=
  try_except
    (text <- read_text_of D script_path ;;
     let lines := splitlines D text in
     limit <- lift (Py.int (int_of_str P)
                      (Dict.get cfg "code_preview_lines" (JInt 200))) ;;
     (if (Z.of_nat (List.length lines) <=? limit)%Z then Io.print text
      else preview_pages (List.length lines) lines 0) ;;;
     Io.print (nl ++ rule60))
    any_exception
    (fun e => Io.print (preview_error e)).

Definition show_code_preview (cfg : dict) (script_path : path) : M unit :=
  clear_screen ;;;
  Io.print ("--- Código: " ++ Path.name script_path ++ " ---") ;;;
  Io.print ("Ruta: " ++ Path.to_string script_path) ;;;
  Io.print rule60 ;;;
  preview_text cfg script_path ;;;
  pause pause_msg.

(** *** Entry point and menu actions *)


(** Action 3 of [script_actions_menu]: the run with [confirm_before_run]
    inverted.  The configuration is a dictionary the menus share; the
    model returns it as the [finally] clause leaves it, beside the outcome
    of the run. *)
Definition run_inverted (cfg : dict) (script_path : path) (w : world)
  : dict * outcome run_result :=
  let old := Dict.get cfg "confirm_before_run" (JBool true) in
  let cfg1 := Dict.set "confirm_before_run" (JBool (negb (Py.truthy old))) cfg in
  let result := run_script P cfg1 script_path w in
  (Dict.set "confirm_before_run" old cfg1, result).

End Desk.

(** *** What the preview puts on the console *)

(** The world after the four heading lines of [show_code_preview]. *)
Definition after_heading (script_path : path) (w : world) : world :=
  Io.with_console (stdin w)
    (stdout w
     ++ [Cleared;
         Printed ("--- Código: " ++ Path.name script_path ++ " ---");
         Printed ("Ruta: " ++ Path.to_string script_path);
         Printed rule60])
    w.

(** [lines[start:start + 60]] *)
Definition chunk (lines : list string) (start : nat) : list string :=
  firstn 60 (skipn start lines).

(** The console of the paging loop from [start] on, when the reader
    answers each of [answers] at a prompt: a page, then for every answer
    the prompt and the next page. *)
Fixpoint paged (lines : list string) (start : nat) (answers : list string)
  : list event :=
  Printed (Str.join nl (chunk lines start))
  :: match answers with
     | [] => []
     | _ :: t => Asked more_prompt :: paged lines (start + 60) t
     end.

(** An answer that does not stop the paging. *)
Definition goes_on (answer : string) : bool :=
  negb (String.eqb (Str.lower (Str.strip answer)) "q").


(** The entries of the directory at [folder], as [iterdir] yields them. *)
Definition children (w : world) (folder : path) : list path :=
  match Fs.stat (root w) (cwd w) folder with
  | Ok (Dir true entries) => map (fun e => Path.child folder (fst e)) entries
  | _ => []
  end.


(** Non-decreasing lowered names. *)
Definition by_name (a b : path) : Prop :=
  String.leb (name_lower a) (name_lower b) = true.

(** ** More of the small installation *)

Module Cases.

Definition a_py : path := ["/"; "home"; "u"; "Unidad 1"; "a.py"].
Definition b_py : path := ["/"; "home"; "u"; "Unidad 1"; "b.py"].
Definition gone_py : path := ["/"; "home"; "u"; "Unidad 1"; "gone.py"].

(** The sample installation with a stored state. *)
Definition with_state (st : dict) : world :=
  set_doc StateDoc (Present true true (Dumped (JObj st))) Sample.start.

(** Three stored favourites, the first of which is gone. *)
Definition three_favorites : world :=
  with_state [("recent", JArr []);
              ("favorites", JArr [JStr "/home/u/Unidad 1/gone.py";
                                  JStr "/home/u/Unidad 1/b.py";
                                  JStr "/home/u/Unidad 1/a.py"])].

(** A favourites list that holds a list. *)
Definition odd_favorites : world :=
  with_state [("recent", JArr []); ("favorites", JArr [JArr []])].

(** The sample installation with a stored configuration. *)
Definition with_config (writable : bool) (d : dict) : world :=
  set_doc ConfigDoc (Present true writable (Dumped (JObj d))) Sample.start.

(** The configuration of an installation in [/opt/dashboard] whose base
    directory is the home directory. *)
Definition complete : dict :=
  Dict.set "base_dir" (JStr "/home/u")
    (default_config (script_dir Sample.platform)).

(** The sample installation with the lines [input] will read. *)
Definition answering (lines : list string) : world :=
  Io.with_console lines [] Sample.start.

(** A script of 130 lines. *)
Definition long_lines : list string := repeat "x = 1" 130.

Definition long_text : string := Str.join nl long_lines.

(** A desktop that is neither Windows nor macOS, whose openers succeed,
    and on which [b.py] is the long script and every other file one
    line. *)
Definition desktop : Desktop :=
  mkDesktop false false
    (fun _ => ret tt)
    (fun _ => ret tt)
    (fun p w =>
       match Fs.stat (root w) (cwd w) p with
       | Ok File =>
           Ret (if String.eqb (Path.name p) "b.py" then long_text
                else "print(1)") w
       | Ok _ => Raise OtherError w
       | Err e => Raise e w
       end)
    (Str.split_on (ascii_of_nat 10)).

End Cases.

(** * Properties *)

(** ** Induction on the directory tree *)

(** The induction principle of [node] with the hypothesis for every
    entry of a directory. *)
Fixpoint node_nested_ind (Q : node -> Prop)
    (HFile : Q File) (HSpecial : Q Special)
    (HDir : forall (open : bool) (entries : list (string * node)),
        Forall (fun e => Q (snd e)) entries -> Q (Dir open entries))
    (n : node) : Q n :=
  match n with
  | File => HFile
  | Special => HSpecial
  | Dir open entries =>
      HDir open entries
        ((fix all (l : list (string * node)) : Forall (fun e => Q (snd e)) l :=
            match l with
            | [] => Forall_nil _
            | e :: t =>
                Forall_cons e (node_nested_ind Q HFile HSpecial HDir (snd e))
                            (all t)
            end) entries)
  end.

(** ** Strings *)

Module StrFacts.

Lemma lower_char_space (c : ascii) :
  Str.is_space c = true -> Str.lower_char c = c.
Proof.
  unfold Str.is_space, Str.lower_char. intros H.
  destruct (Nat.leb 65 (nat_of_ascii c)) eqn:E; simpl; auto.
  apply Nat.leb_le in E.
  apply orb_true_iff in H as [H | H];
    apply andb_true_iff in H as [_ H]; apply Nat.leb_le in H; lia.
Qed.

Lemma lower_blank (s : string) :
  Str.blank s = true -> Str.lower s = s.
Proof.
  induction s as [| c t IH]; simpl; intros H; auto.
  apply andb_true_iff in H as [Hc Ht].
  now rewrite lower_char_space, IH.
Qed.

Lemma lstrip_blank (s : string) :
  Str.blank s = true -> Str.lstrip s = "".
Proof.
  induction s as [| c t IH]; simpl; intros H; auto.
  apply andb_true_iff in H as [Hc Ht]. rewrite Hc. auto.
Qed.



End StrFacts.

(** ** Dictionaries *)

Module DictFacts.

Lemma lookup_set_same k v d : Dict.lookup k (Dict.set k v d) = Some v.
Proof.
  induction d as [| [k' v'] t IH]; simpl.
  - now rewrite String.eqb_refl.
  - destruct (String.eqb k' k) eqn:E; simpl; rewrite E; auto.
Qed.

Lemma lookup_set_other k k' v d :
  k <> k' -> Dict.lookup k' (Dict.set k v d) = Dict.lookup k' d.
Proof.
  intros Hne. induction d as [| [k0 v0] t IH]; simpl.
  - apply String.eqb_neq in Hne. now rewrite Hne.
  - destruct (String.eqb k0 k) eqn:E; simpl.
    + apply String.eqb_eq in E. subst k0.
      apply String.eqb_neq in Hne. now rewrite Hne.
    + now rewrite IH.
Qed.

Lemma dict_set_twice k v v' d : Dict.set k v (Dict.set k v' d) = Dict.set k v d.
Proof.
  induction d as [| [k0 v0] t IH]; simpl.
  - now rewrite String.eqb_refl.
  - destruct (String.eqb k0 k) eqn:E; simpl; rewrite E; auto.
    now rewrite IH.
Qed.

Lemma lookup_app k d d' :
  Dict.lookup k (d ++ d')%list =
  match Dict.lookup k d with
  | Some v => Some v
  | None => Dict.lookup k d'
  end.
Proof.
  induction d as [| [k0 v0] t IH]; simpl; auto.
  destruct (String.eqb k0 k); auto.
Qed.

Lemma lookup_setdefault k k' v d :
  Dict.lookup k (Dict.setdefault k' v d) =
  match Dict.lookup k d with
  | Some x => Some x
  | None => if String.eqb k' k then Some v else None
  end.
Proof.
  unfold Dict.setdefault, Dict.has.
  destruct (Dict.lookup k' d) eqn:E.
  - destruct (Dict.lookup k d) eqn:E'; auto.
    destruct (String.eqb k' k) eqn:Ek; auto.
    apply String.eqb_eq in Ek. congruence.
  - rewrite lookup_app. simpl. destruct (Dict.lookup k d); auto.
Qed.

Lemma setdefault_present k v d :
  Dict.has k d = true -> Dict.setdefault k v d = d.
Proof. unfold Dict.setdefault. now intros ->. Qed.

Lemma has_set k k' v d :
  Dict.has k' (Dict.set k v d) = String.eqb k k' || Dict.has k' d.
Proof.
  unfold Dict.has. destruct (String.eqb k k') eqn:E; simpl.
  - apply String.eqb_eq in E. subst. now rewrite lookup_set_same.
  - apply String.eqb_neq in E. now rewrite lookup_set_other.
Qed.

Lemma has_setdefault k k' v d :
  Dict.has k (Dict.setdefault k' v d) = String.eqb k' k || Dict.has k d.
Proof.
  unfold Dict.has at 1. rewrite lookup_setdefault. unfold Dict.has.
  destruct (Dict.lookup k d); simpl.
  - now rewrite orb_true_r.
  - rewrite orb_false_r. now destruct (String.eqb k' k).
Qed.

End DictFacts.

(** ** The monad and the stored documents *)

Module WorldFacts.

Lemma get_set_same d f w : get_doc d (set_doc d f w) = f.
Proof. destruct d; reflexivity. Qed.

Lemma set_doc_twice d f f' w : set_doc d f (set_doc d f' w) = set_doc d f w.
Proof. destruct d; reflexivity. Qed.

Lemma state_file_set f w : state_file (set_doc StateDoc f w) = f.
Proof. reflexivity. Qed.

Lemma persisted_console i o w :
  persisted (Io.with_console i o w) = persisted w.
Proof. reflexivity. Qed.

End WorldFacts.

Module StateFacts.

(** [load_state] never fails and never changes the world. *)
Lemma load_state_ret (w : world) : load_state w = Ret (state_of w) w.
Proof.
  destruct w as [cf sf jr jw rt cd ck si so].
  destruct sf as [c | [] wr [[] |]]; reflexivity.
Qed.

(** The state as a function of the stored file. *)
Lemma state_of_file (w : world) :
  state_of w =
  match state_file w with
  | Present true _ (Dumped (JObj d)) =>
      Dict.setdefault "favorites" (JArr [])
        (Dict.setdefault "recent" (JArr []) d)
  | _ => empty_state
  end.
Proof.
  destruct w as [cf sf jr jw rt cd ck si so].
  destruct sf as [c | [] wr [[] |]]; reflexivity.
Qed.

Lemma has_recent (w : world) : Dict.has "recent" (state_of w) = true.
Proof.
  rewrite state_of_file.
  destruct (state_file w) as [c | [] wr [[] |]]; try reflexivity.
  rewrite !DictFacts.has_setdefault. reflexivity.
Qed.

Lemma has_favorites (w : world) : Dict.has "favorites" (state_of w) = true.
Proof.
  rewrite state_of_file.
  destruct (state_file w) as [c | [] wr [[] |]]; try reflexivity.
  rewrite !DictFacts.has_setdefault. reflexivity.
Qed.

(** Saving to a usable document stores the state, readable and
    writable. *)
Lemma save_state_usable (st : dict) (w : world) :
  usable (state_file w) = true ->
  save_state st w =
  Ret tt (set_doc StateDoc (Present true true (Dumped (JObj st))) w).
Proof.
  destruct w as [cf sf jr jw rt cd ck si so].
  destruct sf as [[] | [] [] t]; simpl; intros H;
    try discriminate; reflexivity.
Qed.

(** A refused write is swallowed: the world stays as it was. *)
Lemma save_state_refused (st : dict) (w : world) :
  (exists r t, state_file w = Present r false t) \/ state_file w = Absent false ->
  save_state st w = Ret tt w.
Proof.
  destruct w as [cf sf jr jw rt cd ck si so]. simpl.
  intros [(r & t & ->) | ->]; reflexivity.
Qed.

(** The console does not bear on the state. *)
Lemma state_of_console (i : list string) (o : list event) (w : world) :
  state_of (Io.with_console i o w) = state_of w.
Proof. now rewrite !state_of_file. Qed.

(** A saved state that has both lists is read back as it is. *)
Lemma state_of_saved (st : dict) (w : world) :
  Dict.has "recent" st = true ->
  Dict.has "favorites" st = true ->
  state_of (set_doc StateDoc (Present true true (Dumped (JObj st))) w) = st.
Proof.
  intros Hr Hf. rewrite state_of_file. simpl.
  rewrite (@DictFacts.setdefault_present "recent" (JArr []) st Hr).
  now rewrite (@DictFacts.setdefault_present "favorites" (JArr []) st Hf).
Qed.

End StateFacts.

(** ** The recent list *)

Module RecentFacts.

Lemma in_firstn {A : Type} (x : A) (n : nat) (l : list A) :
  In x (firstn n l) -> In x l.
Proof.
  revert n. induction l as [| y t IH]; intros [| n]; simpl; auto; try tauto.
  intros [H | H]; eauto.
Qed.

Lemma forallb_firstn {A : Type} (f : A -> bool) (n : nat) (l : list A) :
  forallb f l = true -> forallb f (firstn n l) = true.
Proof.
  revert n. induction l as [| x t IH]; intros [| n]; simpl; auto.
  intros H. apply andb_true_iff in H as [Hx Ht]. rewrite Hx. simpl. auto.
Qed.

(** Cutting a filtered list leaves it filtered. *)
Lemma filter_firstn_filter {A : Type} (f : A -> bool) (n : nat) (l : list A) :
  filter f (firstn n (filter f l)) = firstn n (filter f l).
Proof. apply forallb_filter_id, forallb_firstn, forallb_filter. Qed.

Lemma bump_succ (m : nat) (p : string) (r : list json) :
  bump (S m) p r = JStr p :: firstn m (filter (other p) r).
Proof. reflexivity. Qed.

Lemma is_str_refl (p : string) : Py.is_str p (JStr p) = true.
Proof. simpl. apply String.eqb_refl. Qed.

Lemma hd_bump (n : nat) (p : string) (r : list json) :
  0 < n -> hd_error (bump n p r) = Some (JStr p).
Proof. destruct n; [lia | reflexivity]. Qed.

Lemma length_bump (n : nat) (p : string) (r : list json) :
  List.length (bump n p r) <= n.
Proof. apply firstn_le_length. Qed.

Lemma filter_is_str_other (p : string) (l : list json) :
  filter (Py.is_str p) (filter (other p) l) = [].
Proof.
  induction l as [| x t IH]; simpl; auto.
  unfold other at 1. destruct (Py.is_str p x) eqn:E; simpl; auto.
  now rewrite E.
Qed.

Lemma filter_nil_firstn {A : Type} (f : A -> bool) (n : nat) (l : list A) :
  filter f l = [] -> filter f (firstn n l) = [].
Proof.
  revert n. induction l as [| x t IH]; intros [| n]; simpl; auto.
  destruct (f x); [discriminate | auto].
Qed.

(** After [add_recent] the path occurs once. *)
Lemma count_bump (n : nat) (p : string) (r : list json) :
  0 < n -> count_str p (bump n p r) = 1.
Proof.
  destruct n as [| m]; [lia | intros _].
  unfold count_str. rewrite bump_succ. simpl. rewrite String.eqb_refl.
  simpl. now rewrite filter_nil_firstn by apply filter_is_str_other.
Qed.

(** Adding the same path again changes nothing. *)
Lemma bump_bump (n : nat) (p : string) (r : list json) :
  bump n p (bump n p r) = bump n p r.
Proof.
  destruct n as [| m]; [reflexivity |].
  rewrite !bump_succ. simpl. unfold other at 1. rewrite is_str_refl. simpl.
  fold (other p). rewrite filter_firstn_filter.
  now rewrite firstn_firstn, Nat.min_id.
Qed.

Lemma in_bump (n : nat) (p : string) (r : list json) (x : json) :
  In x (bump n p r) -> x = JStr p \/ (In x r /\ Py.is_str p x = false).
Proof.
  unfold bump. intros H. apply in_firstn in H. destruct H as [H | H].
  - now left.
  - right. apply filter_In in H as [H1 H2]. split; auto.
    now apply negb_true_iff in H2.
Qed.

(** *** Several distinct paths in a row *)

Lemma filter_other_strs (s : string) (l : list string) :
  ~ In s l -> filter (other s) (map JStr l) = map JStr l.
Proof.
  induction l as [| x t IH]; simpl; intros H; auto.
  unfold other at 1. simpl.
  destruct (String.eqb x s) eqn:E.
  - apply String.eqb_eq in E. subst. exfalso. apply H. now left.
  - simpl. f_equal. apply IH. intros Hin. apply H. now right.
Qed.

Lemma firstn_succ_split {A : Type} (m : nat) (l : list A) :
  firstn (S m) l = (firstn m l ++ firstn 1 (skipn m l))%list.
Proof.
  revert l. induction m as [| m IH]; intros [| x t]; simpl; auto.
  f_equal. apply IH.
Qed.

(** The paths added last, newest first, are the front of the list. *)
Lemma bump_all_front (n : nat) (ps : list string) (r : list json) :
  NoDup ps ->
  exists rest,
    bump_all n ps r = (map JStr (firstn n (rev ps)) ++ rest)%list.
Proof.
  revert r. induction ps as [| s t IH] using rev_ind; intros r Hnd.
  - exists r. simpl. now rewrite firstn_nil.
  - unfold bump_all. rewrite fold_left_app. simpl. fold (bump_all n t r).
    assert (Hs : ~ In s t).
    { intros Hin. apply NoDup_remove_2 in Hnd. apply Hnd.
      rewrite app_nil_r. exact Hin. }
    assert (Ht : NoDup t).
    { apply NoDup_remove_1 in Hnd. now rewrite app_nil_r in Hnd. }
    destruct (IH r Ht) as [rest Hrest]. rewrite Hrest.
    rewrite rev_unit.
    destruct n as [| m]; [exists []; reflexivity |].
    rewrite bump_succ, filter_app.
    rewrite filter_other_strs.
    2:{ intros Hin. apply in_firstn in Hin. apply Hs. now apply in_rev. }
    change (firstn (S m) (s :: rev t)) with (s :: firstn m (rev t)).
    cbn [map app].
    rewrite firstn_succ_split, map_app, <- app_assoc.
    rewrite firstn_app.
    rewrite (@firstn_all2 _ m (map JStr (firstn m (rev t)))).
    2:{ rewrite length_map. apply firstn_le_length. }
    eexists. reflexivity.
Qed.

(** With at least [n] distinct paths the list is exactly the last [n]
    of them, newest first. *)
Lemma bump_all_exact (n : nat) (ps : list string) (r : list json) :
  NoDup ps -> 0 < n -> n <= List.length ps ->
  bump_all n ps r = map JStr (firstn n (rev ps)).
Proof.
  intros Hnd Hn Hlen.
  destruct (bump_all_front n ps r Hnd) as [rest Hrest].
  assert (Hle : List.length (bump_all n ps r) <= n).
  { destruct ps as [| s t] using rev_ind; [simpl in Hlen; lia |].
    unfold bump_all. rewrite fold_left_app. simpl. apply length_bump. }
  rewrite Hrest in Hle. rewrite length_app, length_map, length_firstn in Hle.
  rewrite length_rev in Hle.
  assert (rest = []) by (destruct rest; [reflexivity | simpl in Hle; lia]).
  subst rest. now rewrite Hrest, app_nil_r.
Qed.

End RecentFacts.

Section RecentClaims.

Variable P : Platform.

(** The world [add_recent] leaves: the stored state with its recent
    list replaced. *)
Lemma add_recent_step (cfg : dict) (sp : path) (w : world)
    (r : list json) (L : Z) :
  usable (state_file w) = true ->
  recent_of w = Some (JArr r) ->
  Py.int (int_of_str P) (Dict.get cfg "recent_limit" (JInt 15)) = Ok L ->
  (0 <= L)%Z ->
  add_recent P cfg sp w =
  Ret tt (set_doc StateDoc
            (Present true true
               (Dumped (JObj (Dict.set "recent"
                                (JArr (bump (Z.to_nat L) (resolved P sp) r))
                                (state_of w)))))
            w).
Proof.
  intros Hu Hr HL Hpos. unfold add_recent, bind.
  rewrite StateFacts.load_state_ret.
  unfold recent_of in Hr. unfold Dict.get at 1. rewrite Hr. simpl.
  rewrite HL. simpl.
  rewrite StateFacts.save_state_usable by exact Hu.
  unfold Py.slice_to. destruct (Z.leb_spec 0 L); [reflexivity | lia].
Qed.

(** When the write is refused [add_recent] returns all the same and the
    stored list stays as it was. *)
Lemma add_recent_unsaved (cfg : dict) (sp : path) (w : world)
    (r : list json) (L : Z) :
  (exists rd t, state_file w = Present rd false t) \/ state_file w = Absent false ->
  recent_of w = Some (JArr r) ->
  Py.int (int_of_str P) (Dict.get cfg "recent_limit" (JInt 15)) = Ok L ->
  add_recent P cfg sp w = Ret tt w.
Proof.
  intros Hw Hr HL. unfold add_recent, bind.
  rewrite StateFacts.load_state_ret.
  unfold recent_of in Hr. unfold Dict.get at 1. rewrite Hr. simpl.
  rewrite HL. simpl. now apply StateFacts.save_state_refused.
Qed.

Lemma after_add_recent (st : dict) (v : json) (w : world) :
  Dict.has "favorites" st = true ->
  let w1 := set_doc StateDoc
              (Present true true (Dumped (JObj (Dict.set "recent" v st)))) w in
  usable (state_file w1) = true /\
  state_of w1 = Dict.set "recent" v st /\
  recent_of w1 = Some v.
Proof.
  intros Hf w1. split; [reflexivity |].
  assert (Hs : state_of w1 = Dict.set "recent" v st).
  { apply StateFacts.state_of_saved; rewrite DictFacts.has_set; auto. }
  split; [exact Hs |].
  unfold recent_of. rewrite Hs. apply DictFacts.lookup_set_same.
Qed.

(** Adding the paths [ps] one after the other. *)
Lemma add_recent_many (cfg : dict) (L : Z) (ps : list path) :
  Py.int (int_of_str P) (Dict.get cfg "recent_limit" (JInt 15)) = Ok L ->
  (0 <= L)%Z ->
  forall (w : world) (r : list json),
    usable (state_file w) = true ->
    recent_of w = Some (JArr r) ->
    exists w2,
      forM_ ps (add_recent P cfg) w = Ret tt w2 /\
      usable (state_file w2) = true /\
      recent_of w2 =
        Some (JArr (bump_all (Z.to_nat L) (map (resolved P) ps) r)).
Proof.
  intros HL Hpos. induction ps as [| sp t IH]; intros w r Hu Hr.
  - exists w. simpl. auto.
  - simpl. unfold bind.
    rewrite (add_recent_step cfg sp w r L Hu Hr HL Hpos).
    destruct (after_add_recent (state_of w)
                (JArr (bump (Z.to_nat L) (resolved P sp) r)) w
                (StateFacts.has_favorites w)) as (Hu1 & _ & Hr1).
    exact (IH _ _ Hu1 Hr1).
Qed.

(** C1. [add_recent] with a positive [recent_limit] [L], on a state
    document that can be read and written: the stored list becomes the
    path followed by the other entries, cut to [L]; the path is its
    first element and occurs once in it; adding the same path again
    gives the same world; and adding at least [L] distinct paths leaves
    exactly the last [L] of them, the most recent first. *)
Theorem add_recent_front_once_bounded
    (cfg : dict) (sp : path) (w : world) (r : list json) (L : Z) :
  usable (state_file w) = true ->
  recent_of w = Some (JArr r) ->
  Py.int (int_of_str P) (Dict.get cfg "recent_limit" (JInt 15)) = Ok L ->
  (0 < L)%Z ->
  (exists (w1 : world) (r1 : list json),
      add_recent P cfg sp w = Ret tt w1 /\
      recent_of w1 = Some (JArr r1) /\
      r1 = firstn (Z.to_nat L)
             (JStr (resolved P sp) :: filter (other (resolved P sp)) r) /\
      hd_error r1 = Some (JStr (resolved P sp)) /\
      count_str (resolved P sp) r1 = 1 /\
      List.length r1 <= Z.to_nat L /\
      (add_recent P cfg sp ;;; add_recent P cfg sp) w = Ret tt w1)
  /\
  (forall ps : list path,
      NoDup (map (resolved P) ps) ->
      Z.to_nat L <= List.length ps ->
      exists w2 : world,
        forM_ ps (add_recent P cfg) w = Ret tt w2 /\
        recent_of w2 =
          Some (JArr (map JStr
                        (firstn (Z.to_nat L) (rev (map (resolved P) ps))))) /\
        List.length (firstn (Z.to_nat L) (rev (map (resolved P) ps)))
          = Z.to_nat L).
Proof.
  intros Hu Hr HL Hpos.
  assert (Hn : 0 < Z.to_nat L) by lia.
  assert (H0 : (0 <= L)%Z) by lia.
  split.
  - pose proof (add_recent_step cfg sp w r L Hu Hr HL H0) as Hstep.
    destruct (after_add_recent (state_of w)
                (JArr (bump (Z.to_nat L) (resolved P sp) r)) w
                (StateFacts.has_favorites w)) as (Hu1 & Hs1 & Hr1).
    eexists. exists (bump (Z.to_nat L) (resolved P sp) r).
    split; [exact Hstep |].
    split; [exact Hr1 |].
    split; [reflexivity |].
    split; [now apply RecentFacts.hd_bump |].
    split; [now apply RecentFacts.count_bump |].
    split; [apply RecentFacts.length_bump |].
    unfold bind. rewrite Hstep.
    rewrite (add_recent_step cfg sp _ _ L Hu1 Hr1 HL H0).
    rewrite Hs1, RecentFacts.bump_bump, DictFacts.dict_set_twice.
    now rewrite WorldFacts.set_doc_twice.
  - intros ps Hnd Hlen.
    destruct (add_recent_many cfg L ps HL H0 w r Hu Hr) as (w2 & Hrun & _ & Hr2).
    exists w2. split; [exact Hrun |].
    rewrite Hr2.
    rewrite RecentFacts.bump_all_exact; auto.
    + split; [reflexivity |].
      rewrite length_firstn, length_rev, length_map. lia.
    + now rewrite length_map.
Qed.

End RecentClaims.

(** ** Favourites *)

Module FavoriteFacts.

Lemma existsb_filter_other (p : string) (l : list json) :
  existsb (Py.is_str p) (filter (other p) l) = false.
Proof.
  induction l as [| x t IH]; simpl; auto.
  unfold other at 1. destruct (Py.is_str p x) eqn:E; simpl; auto.
  now rewrite E.
Qed.

Lemma existsb_snoc (p : string) (l : list json) :
  existsb (Py.is_str p) (l ++ [JStr p]) = true.
Proof.
  rewrite existsb_app. simpl. rewrite String.eqb_refl.
  now rewrite orb_true_r.
Qed.

Lemma hashable_filter (f : json -> bool) (l : list json) :
  forallb Py.hashable l = true -> forallb Py.hashable (filter f l) = true.
Proof.
  induction l as [| x t IH]; simpl; auto.
  intros H. apply andb_true_iff in H as [Hx Ht].
  destruct (f x); simpl; auto. rewrite Hx. auto.
Qed.

Lemma hashable_snoc (p : string) (l : list json) :
  forallb Py.hashable l = true ->
  forallb Py.hashable (l ++ [JStr p]) = true.
Proof. intros H. rewrite forallb_app, H. reflexivity. Qed.

Lemma after_toggle (st : dict) (v : json) (w : world) :
  Dict.has "recent" st = true ->
  let w1 := set_doc StateDoc
              (Present true true (Dumped (JObj (Dict.set "favorites" v st)))) w in
  usable (state_file w1) = true /\
  favorites_of w1 = Some v.
Proof.
  intros Hr w1. subst w1. split; [reflexivity |].
  unfold favorites_of.
  rewrite StateFacts.state_of_saved by (rewrite DictFacts.has_set; auto).
  apply DictFacts.lookup_set_same.
Qed.

End FavoriteFacts.

Section FavoriteClaims.

Variable P : Platform.

Lemma toggle_favorite_remove (sp : path) (w : world) (favs : list json) :
  usable (state_file w) = true ->
  favorites_of w = Some (JArr favs) ->
  existsb (Py.is_str (resolved P sp)) favs = true ->
  toggle_favorite P sp w =
  Ret false
    (set_doc StateDoc
       (Present true true
          (Dumped (JObj (Dict.set "favorites"
                           (JArr (filter (other (resolved P sp)) favs))
                           (state_of w)))))
       w).
Proof.
  intros Hu Hf Hin. unfold toggle_favorite, bind.
  rewrite StateFacts.load_state_ret.
  unfold favorites_of in Hf. unfold Dict.get. rewrite Hf. simpl.
  rewrite Hin. simpl.
  now rewrite StateFacts.save_state_usable by exact Hu.
Qed.

Lemma toggle_favorite_add (sp : path) (w : world) (favs : list json) :
  usable (state_file w) = true ->
  favorites_of w = Some (JArr favs) ->
  existsb (Py.is_str (resolved P sp)) favs = false ->
  toggle_favorite P sp w =
  Ret true
    (set_doc StateDoc
       (Present true true
          (Dumped (JObj (Dict.set "favorites"
                           (JArr (favs ++ [JStr (resolved P sp)]))
                           (state_of w)))))
       w).
Proof.
  intros Hu Hf Hin. unfold toggle_favorite, bind.
  rewrite StateFacts.load_state_ret.
  unfold favorites_of in Hf. unfold Dict.get. rewrite Hf. simpl.
  rewrite Hin. simpl.
  now rewrite StateFacts.save_state_usable by exact Hu.
Qed.

Lemma is_favorite_reads (sp : path) (w : world) (favs : list json) :
  favorites_of w = Some (JArr favs) ->
  forallb Py.hashable favs = true ->
  is_favorite P sp w = Ret (existsb (Py.is_str (resolved P sp)) favs) w.
Proof.
  intros Hf Hh. unfold is_favorite, bind.
  rewrite StateFacts.load_state_ret.
  unfold favorites_of in Hf. unfold Dict.get. rewrite Hf.
  unfold Py.set. simpl. now rewrite Hh.
Qed.

(** Toggling a favourite removes it, and [is_favorite] sees that. *)
Lemma toggle_off (sp : path) (w : world) (favs : list json) :
  usable (state_file w) = true ->
  favorites_of w = Some (JArr favs) ->
  forallb Py.hashable favs = true ->
  existsb (Py.is_str (resolved P sp)) favs = true ->
  exists w1 : world,
    toggle_favorite P sp w = Ret false w1 /\
    favorites_of w1 = Some (JArr (filter (other (resolved P sp)) favs)) /\
    is_favorite P sp w1 = Ret false w1.
Proof.
  intros Hu Hf Hh Hin.
  destruct (FavoriteFacts.after_toggle (state_of w)
              (JArr (filter (other (resolved P sp)) favs)) w
              (StateFacts.has_recent w)) as (Hu1 & Hf1).
  eexists. split; [exact (toggle_favorite_remove sp w favs Hu Hf Hin) |].
  split; [exact Hf1 |].
  rewrite (is_favorite_reads sp _ _ Hf1)
    by now apply FavoriteFacts.hashable_filter.
  now rewrite FavoriteFacts.existsb_filter_other.
Qed.

(** C2. [toggle_favorite] on a state document that can be read and
    written, whose favourites are a list of hashable values: a path in
    the list is removed and [False] returned, a path not in it is
    appended and [True] returned; [is_favorite] then answers what the
    toggle returned, and a second toggle of an added path returns
    [False] and removes it again. *)
Theorem toggle_favorite_flips (sp : path) (w : world) (favs : list json) :
  usable (state_file w) = true ->
  favorites_of w = Some (JArr favs) ->
  forallb Py.hashable favs = true ->
  (existsb (Py.is_str (resolved P sp)) favs = true ->
   exists w1 : world,
     toggle_favorite P sp w = Ret false w1 /\
     favorites_of w1 = Some (JArr (filter (other (resolved P sp)) favs)) /\
     is_favorite P sp w1 = Ret false w1)
  /\
  (existsb (Py.is_str (resolved P sp)) favs = false ->
   exists w1 w2 : world,
     toggle_favorite P sp w = Ret true w1 /\
     favorites_of w1 = Some (JArr (favs ++ [JStr (resolved P sp)])) /\
     is_favorite P sp w1 = Ret true w1 /\
     toggle_favorite P sp w1 = Ret false w2 /\
     is_favorite P sp w2 = Ret false w2).
Proof.
  intros Hu Hf Hh. split; intros Hin.
  - now apply toggle_off.
  - destruct (FavoriteFacts.after_toggle (state_of w)
                (JArr (favs ++ [JStr (resolved P sp)])) w
                (StateFacts.has_recent w)) as (Hu1 & Hf1).
    pose proof (FavoriteFacts.hashable_snoc (resolved P sp) favs Hh) as Hh1.
    pose proof (FavoriteFacts.existsb_snoc (resolved P sp) favs) as Hin1.
    destruct (toggle_off sp _ _ Hu1 Hf1 Hh1 Hin1) as (w2 & Ht2 & _ & Hq2).
    eexists. exists w2.
    split; [exact (toggle_favorite_add sp w favs Hu Hf Hin) |].
    split; [exact Hf1 |].
    split; [| split; assumption].
    rewrite (is_favorite_reads sp _ _ Hf1 Hh1). now rewrite Hin1.
Qed.

End FavoriteClaims.

(** ** Loading the configuration *)

Module ConfigFacts.




Lemma default_keys (b b' : path) :
  Dict.keys (default_config b) = Dict.keys (default_config b').
Proof. reflexivity. Qed.

End ConfigFacts.

Section ConfigClaims.

Variable P : Platform.




End ConfigClaims.

Section ConfigFailures.

Variable P : Platform.

(** With a document that is missing or cannot be parsed, and a
    directory that accepts the write, the defaults are stored and
    returned. *)
Lemma load_config_recovers (w : world) :
  config_file w = Absent true \/
  (exists r, config_file w = Present r true Malformed) \/
  (exists t, config_file w = Present false true t) ->
  exists w' : world,
    load_or_create_config P w = Ret (default_config (script_dir P)) w' /\
    exists r, config_file w' =
              Present r true (Dumped (JObj (default_config (script_dir P)))).
Proof.
  destruct w as [cf sf jr jw rt cd ck si so]. simpl.
  intros [-> | [[r ->] | [t ->]]].
  - cbv [load_or_create_config bind Io.file_exists gets get_doc config_file
         negb Io.write_text ret].
    eexists. split; [reflexivity | exists true; reflexivity].
  - destruct r;
      cbv [load_or_create_config bind Io.file_exists gets get_doc
           config_file negb Io.write_text ret try_except Io.read_text lift
           Io.json_loads raise any_exception];
      eexists; (split; [reflexivity | eexists; reflexivity]).
  - cbv [load_or_create_config bind Io.file_exists gets get_doc config_file
         negb Io.write_text ret try_except Io.read_text lift
         Io.json_loads raise any_exception].
    eexists. split; [reflexivity | exists false; reflexivity].
Qed.

(** C6. [load_or_create_config] raises to its caller: a document that
    can be neither read nor written, and a missing document in a
    directory that refuses the write, give [PermissionError] from the
    unguarded [write_text]; a document that holds a JSON array gives
    [AttributeError] from [cfg.get]. *)
Theorem load_config_raises :
  (forall (w : world) (t : text),
      let w0 := set_doc ConfigDoc (Present false false t) w in
      load_or_create_config P w0 = Raise PermissionError w0)
  /\
  (forall w : world,
      let w0 := set_doc ConfigDoc (Absent false) w in
      load_or_create_config P w0 = Raise PermissionError w0)
  /\
  (forall (w : world) (wr : bool),
      let w0 := set_doc ConfigDoc (Present true wr (Dumped (JArr []))) w in
      load_or_create_config P w0 = Raise AttributeError w0).
Proof.
  repeat split; intros; destruct w; reflexivity.
Qed.

End ConfigFailures.

(** ** Running a script *)

Section RunClaims.

Variable P : Platform.

(** What a declined run does: two prompts and one message on the
    console, nothing else. *)
Lemma run_script_declined (cfg : dict) (sp : path) (w : world)
    (ans : string) (rest : list string) :
  Py.truthy (Dict.get cfg "confirm_before_run" (JBool true)) = true ->
  stdin w = ans :: rest ->
  String.eqb (Str.lower (Str.strip ans)) "s" = false ->
  let out := (((stdout w
                ++ [Asked ("¿Ejecutar '" ++ Path.name sp ++ "'? (s/n) > ")])
               ++ [Printed "Ejecución cancelada."])
              ++ [Asked pause_msg])%list in
  run_script P cfg sp w =
  match rest with
  | [] => Raise EOFError (Io.with_console [] out w)
  | _ :: rest' => Ret Cancelled (Io.with_console rest' out w)
  end.
Proof.
  intros Hconfirm Hin Hno.
  destruct w as [cf sf jr jw rt cd ck si so]. simpl in Hin. subst si.
  unfold run_script, bind. rewrite Hconfirm.
  unfold Io.input at 1. cbn [stdin]. unfold ret at 1. rewrite Hno.
  destruct rest; reflexivity.
Qed.

(** C7. With confirmation on and an answer other than [s], [run_script]
    announces the cancellation and leaves both documents, the log and the
    directory tree as they were; when the closing Enter of [pause] is
    there to read it returns by the cancelled exit. *)
Theorem run_script_declined_changes_nothing
    (cfg : dict) (sp : path) (w : world) (ans : string) (rest : list string) :
  Py.truthy (Dict.get cfg "confirm_before_run" (JBool true)) = true ->
  stdin w = ans :: rest ->
  String.eqb (Str.lower (Str.strip ans)) "s" = false ->
  persisted (final_world (run_script P cfg sp w)) = persisted w /\
  recent_of (final_world (run_script P cfg sp w)) = recent_of w /\
  In (Printed "Ejecución cancelada.")
     (stdout (final_world (run_script P cfg sp w))) /\
  (forall enter rest',
      rest = enter :: rest' ->
      exists w' : world,
        run_script P cfg sp w = Ret Cancelled w' /\
        persisted w' = persisted w /\
        stdin w' = rest').
Proof.
  intros Hconfirm Hin Hno.
  rewrite (run_script_declined cfg sp w ans rest Hconfirm Hin Hno).
  destruct rest as [| enter rest']; cbn [final_world];
    (split; [reflexivity |]);
    (split; [unfold recent_of; now rewrite StateFacts.state_of_console |]);
    split.
  - cbn [stdout Io.with_console]. rewrite !in_app_iff.
    left. right. left. reflexivity.
  - intros ? ? [=].
  - cbn [stdout Io.with_console]. rewrite !in_app_iff.
    left. right. left. reflexivity.
  - intros e r' [= <- <-]. eexists. repeat split.
Qed.

End RunClaims.

(** ** Listing folders and scripts *)


(** A path that runs through a regular file is neither: [iterdir] raises
    [NotADirectoryError], which neither function catches. *)
Lemma listing_below_a_file_raises (p : path) (w : world) :
  Fs.stat (root w) (cwd w) p = Err NotADirectoryError \/
  Fs.stat (root w) (cwd w) p = Ok File ->
  list_scripts p w = Raise NotADirectoryError w.
Proof.
  intros H. unfold list_scripts, bind, try_except, Io.iterdir.
  destruct H as [H | H]; rewrite H; reflexivity.
Qed.

(** ** Searching *)

Module SearchFacts.

Lemma in_insert_by_key (key : path -> string) (x y : path) (l : list path) :
  In y (insert_by_key key x l) <-> y = x \/ In y l.
Proof.
  induction l as [| z t IH]; simpl.
  - intuition.
  - destruct (String.leb (key x) (key z)); simpl; [intuition |].
    rewrite IH. intuition.
Qed.

(** Sorting keeps the elements. *)
Lemma in_sorted_by_key (key : path -> string) (y : path) (l : list path) :
  In y (sorted_by_key key l) <-> In y l.
Proof.
  unfold sorted_by_key. induction l as [| x t IH]; simpl; [tauto |].
  rewrite in_insert_by_key, IH. intuition.
Qed.

Lemma filter_andb {A : Type} (f g : A -> bool) (l : list A) :
  filter (fun x => f x && g x) l = filter g (filter f l).
Proof.
  induction l as [| x t IH]; simpl; auto.
  destruct (f x); simpl; [| exact IH].
  destruct (g x); now rewrite IH.
Qed.

(** One candidate: the test raises when [stat] is refused, and answers
    otherwise. *)
Lemma search_hit_eq (ig : list json) (q : string) (p : path) (w : world) :
  search_hit ig q p w =
  if refused w p then Raise PermissionError w
  else Ret (eligible w ig p && name_has q p) w.
Proof.
  unfold search_hit, bind, Io.is_file, Io.stat_is, refused, eligible,
    is_file_at, name_has, ret.
  destruct (Fs.stat (root w) (cwd w) p) as [[] | []]; reflexivity.
Qed.

(** The loop over the candidates. *)
Lemma filterM_search_hit (ig : list json) (q : string) (l : list path) (w : world) :
  filterM (search_hit ig q) l w =
  if existsb (refused w) l then Raise PermissionError w
  else Ret (filter (fun p => eligible w ig p && name_has q p) l) w.
Proof.
  induction l as [| p t IH]; simpl; [reflexivity |].
  unfold bind. rewrite search_hit_eq.
  destruct (refused w p); simpl; [reflexivity |].
  rewrite IH. destruct (existsb (refused w) t); reflexivity.
Qed.

(** [search_scripts] as a function of the tree: the eligible candidates
    whose lowered name contains the stripped, lowered query, sorted. *)
Lemma search_scripts_eq (cfg : dict) (u : path) (q : string) (w : world)
    (ig : list json) :
  Py.set (Dict.get cfg "ignore_dirs" (JArr [])) = Ok ig ->
  search_scripts cfg u q w =
  Ret (sorted_by_key name_lower
         (filter (name_has (Str.strip (Str.lower q))) (listing w ig u))) w.
Proof.
  intros Hset. unfold search_scripts, bind. rewrite Hset. simpl.
  unfold try_except, bind, Io.rglob_py, listing, candidates.
  destruct (Fs.stat (root w) (cwd w) u) as [n | e].
  - rewrite filterM_search_hit.
    destruct (existsb (refused w) (Fs.rglob_node u n)); simpl; [reflexivity |].
    now rewrite filter_andb.
  - destruct e; reflexivity.
Qed.

(** Every candidate lies below the unit: its parts start with the parts
    of the unit path. *)
Lemma rglob_node_below (n : node) :
  forall (prefix p : path),
    In p (Fs.rglob_node prefix n) -> exists rel, p = (prefix ++ rel)%list.
Proof.
  induction n as [| | open entries IH] using node_nested_ind;
    intros prefix p; simpl; try tauto.
  destruct open; [| simpl; tauto].
  intros H. apply in_app_or in H as [H | H].
  - apply in_map_iff in H as (e & <- & _). now exists [fst e].
  - apply in_flat_map in H as (e & He & H).
    destruct (Fs.is_dir_node (snd e)); [| simpl in H; tauto].
    rewrite Forall_forall in IH.
    destruct (IH e He _ _ H) as [rel ->].
    exists (fst e :: rel). unfold Path.child. now rewrite <- app_assoc.
Qed.

Lemma candidates_below (w : world) (u p : path) :
  In p (candidates w u) -> exists rel, p = (u ++ rel)%list.
Proof.
  unfold candidates. destruct (Fs.stat (root w) (cwd w) u); simpl; [| tauto].
  apply rglob_node_below.
Qed.

Lemma in_listing (w : world) (ig : list json) (u p : path) :
  In p (listing w ig u) -> In p (candidates w u) /\ eligible w ig p = true.
Proof.
  unfold listing. destruct (existsb (refused w) (candidates w u)); simpl;
    [tauto |].
  apply filter_In.
Qed.

(** What [part in ignore_dirs] finds. *)
Lemma in_ignored_false (ig : list json) (p : path) :
  in_ignored ig p = false ->
  forall part, In part p -> ~ In (JStr part) ig.
Proof.
  unfold in_ignored. intros H part Hpart Hin.
  assert (existsb (fun x => existsb (Py.is_str x) ig) p = true).
  { apply existsb_exists. exists part. split; auto.
    apply existsb_exists. exists (JStr part). split; auto.
    simpl. apply String.eqb_refl. }
  congruence.
Qed.

Lemma in_ignored_true (ig : list json) (p : path) (part : string) :
  In part p -> In (JStr part) ig -> in_ignored ig p = true.
Proof.
  intros Hpart Hin. unfold in_ignored.
  apply existsb_exists. exists part. split; auto.
  apply existsb_exists. exists (JStr part). split; auto.
  simpl. apply String.eqb_refl.
Qed.

Lemma forallb_filter_id_nil {A : Type} (f : A -> bool) (l : list A) :
  (forall x, In x l -> f x = false) -> filter f l = [].
Proof.
  induction l as [| x t IH]; simpl; intros H; auto.
  rewrite (H x) by now left. apply IH. intros y Hy. apply H. now right.
Qed.

End SearchFacts.

Section SearchClaims.


(** C5. No path returned by [search_scripts] has a part that is a member
    of [ignore_dirs]. *)
Theorem search_skips_ignored
    (cfg : dict) (u : path) (q : string) (w : world) (ig : list json) :
  Py.set (Dict.get cfg "ignore_dirs" (JArr [])) = Ok ig ->
  exists hits : list path,
    search_scripts cfg u q w = Ret hits w /\
    forall p, In p hits ->
              in_ignored ig p = false /\
              forall part, In part p -> ~ In (JStr part) ig.
Proof.
  intros Hset. eexists.
  split; [exact (SearchFacts.search_scripts_eq cfg u q w ig Hset) |].
  intros p Hp. apply SearchFacts.in_sorted_by_key in Hp.
  apply filter_In in Hp as [Hp _].
  apply SearchFacts.in_listing in Hp as [_ Hel].
  unfold eligible in Hel. apply andb_true_iff in Hel as [_ Hig].
  apply negb_true_iff in Hig.
  split; [exact Hig | now apply SearchFacts.in_ignored_false].
Qed.

(** C9. When a part of the unit path itself is a member of
    [ignore_dirs], [search_scripts] returns the empty list for every
    query. *)
Theorem search_below_ignored_part_is_empty
    (cfg : dict) (u : path) (q : string) (w : world) (ig : list json)
    (part : string) :
  Py.set (Dict.get cfg "ignore_dirs" (JArr [])) = Ok ig ->
  In part u ->
  In (JStr part) ig ->
  search_scripts cfg u q w = Ret [] w.
Proof.
  intros Hset Hpart Hig.
  rewrite (SearchFacts.search_scripts_eq cfg u q w ig Hset).
  assert (Hnone : listing w ig u = []).
  { unfold listing. destruct (existsb (refused w) (candidates w u)); auto.
    apply SearchFacts.forallb_filter_id_nil. intros p Hp.
    apply SearchFacts.candidates_below in Hp as [rel ->].
    unfold eligible.
    rewrite (SearchFacts.in_ignored_true ig (u ++ rel)%list part);
      [now rewrite andb_false_r | | exact Hig].
    apply in_or_app. now left. }
  now rewrite Hnone.
Qed.

(** The menu does not search for a blank query: it goes back to the
    menu, and only the console has changed. *)
Lemma main_menu_skips_blank_query
    (cfg : dict) (u : path) (w : world) (line : string) (rest : list string) :
  stdin w = line :: rest ->
  Str.blank line = true ->
  main_menu_search cfg u w =
  Ret None
    (Io.with_console rest
       (stdout w ++ [Asked "Buscar (parte del nombre del .py) > "]) w).
Proof.
  intros Hin Hblank. unfold main_menu_search, bind, Io.input.
  rewrite Hin. unfold Str.strip.
  now rewrite (StrFacts.lstrip_blank line Hblank).
Qed.

End SearchClaims.

(** ** Recent scripts at read time *)

Section RecentReadClaims.

Variable P : Platform.

(** The loop over stored strings none of which is refused. *)
Lemma existing_scripts_eq (w : world) (paths : list string) :
  Forall (fun s => refused w (Path.of_string s) = false) paths ->
  existing_scripts (map JStr paths) w =
  Ret (filter (is_script_at w) (stored_paths paths)) w.
Proof.
  induction 1 as [| s t Hs _ IH]; [reflexivity |].
  cbn [map existing_scripts stored_paths filter]. unfold bind at 1.
  cbn [to_path lift ret]. unfold bind at 1.
  unfold Io.exists_, Io.stat_is at 1.
  unfold refused in Hs. unfold is_script_at at 1.
  destruct (Fs.stat (root w) (cwd w) (Path.of_string s)) as [n | e] eqn:E.
  - unfold bind at 1. unfold is_python_file, bind at 1.
    unfold Io.is_file, Io.stat_is. rewrite E. unfold ret at 1.
    unfold bind at 1. fold (stored_paths t). rewrite IH.
    destruct n; reflexivity.
  - destruct e; try discriminate;
      unfold bind at 1; unfold ret at 1; unfold bind at 1;
      fold (stored_paths t); rewrite IH; reflexivity.
Qed.

(** C10. [get_recent_scripts] cuts at read time and writes nothing: on
    a stored list of strings none of which is refused by permissions it
    returns, in the world it started in, the first [recent_limit] of the
    stored entries that still are scripts, in stored order; when all of
    them still are, that is the front of the stored list. *)
Theorem get_recent_scripts_truncates
    (cfg : dict) (w : world) (paths : list string) (L : Z) :
  recent_of w = Some (JArr (map JStr paths)) ->
  Forall (fun s => refused w (Path.of_string s) = false) paths ->
  Py.int (int_of_str P) (Dict.get cfg "recent_limit" (JInt 15)) = Ok L ->
  (0 <= L)%Z ->
  exists out : list path,
    get_recent_scripts P cfg w = Ret out w /\
    out = firstn (Z.to_nat L) (filter (is_script_at w) (stored_paths paths)) /\
    List.length out <= Z.to_nat L /\
    (forallb (is_script_at w) (stored_paths paths) = true ->
     out = stored_paths (firstn (Z.to_nat L) paths)).
Proof.
  intros Hr Hok HL Hpos. eexists. split; [| split; [reflexivity | split]].
  - unfold get_recent_scripts, bind. rewrite StateFacts.load_state_ret.
    unfold recent_of in Hr. unfold Dict.get at 1. rewrite Hr.
    cbn [Py.iter lift ret]. rewrite (existing_scripts_eq w paths Hok).
    rewrite HL. cbn [lift ret]. unfold Py.slice_to.
    destruct (Z.leb_spec 0 L); [reflexivity | lia].
  - apply firstn_le_length.
  - intros Hall. rewrite forallb_filter_id by exact Hall.
    unfold stored_paths. now rewrite firstn_map.
Qed.

End RecentReadClaims.

(** ** The claims on the sample installation *)

(** C1 on the sample installation with a limit of two: one path, then
    three distinct paths in a row. *)
Lemma add_recent_front_once_bounded_witness :
  let cfg := Dict.set "recent_limit" (JInt 2) Sample.cfg in
  usable (state_file Sample.start) = true /\
  recent_of Sample.start = Some (JArr []) /\
  Py.int (int_of_str Sample.platform) (Dict.get cfg "recent_limit" (JInt 15))
    = Ok 2%Z /\
  (0 < 2)%Z /\
  (exists w1,
      add_recent Sample.platform cfg ["x.py"] Sample.start = Ret tt w1 /\
      recent_of w1 = Some (JArr [JStr "/home/u/x.py"])) /\
  (exists w2,
      forM_ [["a.py"]; ["b.py"]; ["c.py"]] (add_recent Sample.platform cfg)
        Sample.start = Ret tt w2 /\
      recent_of w2 = Some (JArr [JStr "/home/u/c.py"; JStr "/home/u/b.py"])).
Proof.
  intros cfg.
  destruct (add_recent_front_once_bounded Sample.platform cfg ["x.py"]
              Sample.start [] 2 eq_refl eq_refl eq_refl eq_refl)
    as [(w1 & r1 & Hrun & Hrec & Hr1 & _) Hmany].
  repeat (split; [reflexivity |]). split.
  - exists w1. split; [exact Hrun |]. rewrite Hrec, Hr1. reflexivity.
  - destruct (Hmany [["a.py"]; ["b.py"]; ["c.py"]]) as (w2 & Hrun2 & Hrec2 & _).
    + repeat constructor; simpl; intuition discriminate.
    + simpl. lia.
    + exists w2. split; [exact Hrun2 | exact Hrec2].
Defined.

(** C2 on the sample installation: a path that is not a favourite is
    added, then removed. *)
Lemma toggle_favorite_flips_witness :
  usable (state_file Sample.start) = true /\
  favorites_of Sample.start = Some (JArr []) /\
  forallb Py.hashable [] = true /\
  exists w1 w2,
    toggle_favorite Sample.platform ["x.py"] Sample.start = Ret true w1 /\
    is_favorite Sample.platform ["x.py"] w1 = Ret true w1 /\
    toggle_favorite Sample.platform ["x.py"] w1 = Ret false w2 /\
    is_favorite Sample.platform ["x.py"] w2 = Ret false w2.
Proof.
  repeat (split; [reflexivity |]).
  destruct (toggle_favorite_flips Sample.platform ["x.py"] Sample.start []
              eq_refl eq_refl eq_refl) as [_ Hadd].
  destruct (Hadd eq_refl) as (w1 & w2 & H1 & _ & H2 & H3 & H4).
  exists w1, w2. repeat split; assumption.
Defined.





(** C5 on the sample unit: [.venv/c.py] is not found. *)
Lemma search_skips_ignored_witness :
  Py.set (Dict.get Sample.cfg "ignore_dirs" (JArr [])) = Ok Sample.default_ignore /\
  exists hits,
    search_scripts Sample.cfg Sample.unit1 "c" Sample.start
      = Ret hits Sample.start /\
    ~ In ["/"; "home"; "u"; "Unidad 1"; ".venv"; "c.py"] hits.
Proof.
  split; [reflexivity |].
  destruct (search_skips_ignored Sample.cfg Sample.unit1 "c" Sample.start
              Sample.default_ignore eq_refl) as (hits & Hrun & Hall).
  exists hits. split; [exact Hrun |].
  intros Hin. destruct (Hall _ Hin) as [Hf _]. discriminate Hf.
Defined.

(** C7 on the sample installation: the answer [n]. *)
Lemma run_script_declined_changes_nothing_witness :
  Py.truthy (Dict.get Sample.cfg "confirm_before_run" (JBool true)) = true /\
  stdin Sample.start = ["n"; ""] /\
  String.eqb (Str.lower (Str.strip "n")) "s" = false /\
  exists w',
    run_script Sample.platform Sample.cfg
      ["/"; "home"; "u"; "Unidad 1"; "a.py"] Sample.start = Ret Cancelled w' /\
    persisted w' = persisted Sample.start /\
    stdin w' = [].
Proof.
  repeat (split; [reflexivity |]).
  destruct (run_script_declined_changes_nothing Sample.platform Sample.cfg
              ["/"; "home"; "u"; "Unidad 1"; "a.py"] Sample.start "n" [""]
              eq_refl eq_refl eq_refl) as (_ & _ & _ & H).
  exact (H "" [] eq_refl).
Defined.


(** C9 on the sample tree: the unit [.venv/lib] holds the script [d.py],
    and the search for [d] in it finds nothing. *)
Lemma search_below_ignored_part_is_empty_witness :
  Py.set (Dict.get Sample.cfg "ignore_dirs" (JArr [])) = Ok Sample.default_ignore /\
  In ".venv" Sample.unit_in_venv /\
  In (JStr ".venv") Sample.default_ignore /\
  is_file_at Sample.start (Sample.unit_in_venv ++ ["d.py"])%list = true /\
  search_scripts Sample.cfg Sample.unit_in_venv "d" Sample.start
    = Ret [] Sample.start.
Proof.
  assert (Hu : In ".venv" Sample.unit_in_venv) by (simpl; tauto).
  assert (Hi : In (JStr ".venv") Sample.default_ignore) by (left; reflexivity).
  split; [reflexivity |]. split; [exact Hu |]. split; [exact Hi |].
  split; [reflexivity |].
  exact (search_below_ignored_part_is_empty Sample.cfg Sample.unit_in_venv "d"
           Sample.start Sample.default_ignore ".venv" eq_refl Hu Hi).
Defined.

(** C10 on three stored entries with a limit of one: the first entry is
    gone, the second is returned, the document stays. *)
Lemma get_recent_scripts_truncates_witness :
  let cfg := Dict.set "recent_limit" (JInt 1) Sample.cfg in
  let stored := ["/home/u/Unidad 1/gone.py"; "/home/u/Unidad 1/a.py";
                 "/home/u/Unidad 1/b.py"] in
  recent_of Sample.three_recent = Some (JArr (map JStr stored)) /\
  Forall (fun s => refused Sample.three_recent (Path.of_string s) = false) stored /\
  Py.int (int_of_str Sample.platform) (Dict.get cfg "recent_limit" (JInt 15))
    = Ok 1%Z /\
  (0 <= 1)%Z /\
  get_recent_scripts Sample.platform cfg Sample.three_recent =
    Ret [["/"; "home"; "u"; "Unidad 1"; "a.py"]] Sample.three_recent.
Proof.
  intros cfg stored.
  assert (Hok : Forall (fun s => refused Sample.three_recent (Path.of_string s) = false)
                       stored) by (repeat constructor).
  assert (Hle : (0 <= 1)%Z) by discriminate.
  split; [reflexivity |]. split; [exact Hok |]. split; [reflexivity |].
  split; [exact Hle |].
  destruct (get_recent_scripts_truncates Sample.platform cfg
              Sample.three_recent stored 1 eq_refl Hok eq_refl Hle)
    as (out & Hrun & Hout & _).
  rewrite Hrun, Hout. reflexivity.
Defined.

(** * Further properties of the program *)

(** ** The state document *)

Module StateMore.

Lemma state_of_same_file (w1 w2 : world) :
  state_file w1 = state_file w2 -> state_of w1 = state_of w2.
Proof. intros H. now rewrite !StateFacts.state_of_file, H. Qed.

Lemma dict_set_same k v d :
  Dict.lookup k d = Some v -> Dict.set k v d = d.
Proof.
  induction d as [| [k' v'] t IH]; simpl; [discriminate |].
  destruct (String.eqb k' k) eqn:E.
  - now intros [= ->].
  - intros H. now rewrite IH.
Qed.

Lemma filter_other_absent (p : string) (l : list json) :
  existsb (Py.is_str p) l = false -> filter (other p) l = l.
Proof.
  induction l as [| x t IH]; simpl; auto.
  intros H. apply orb_false_iff in H as [Hx Ht].
  unfold other at 1. rewrite Hx. simpl. now rewrite IH.
Qed.

End StateMore.

(** X1. [load_state] answers for every condition of the state document,
    in the world it found: the state has both lists; an object keeps
    every stored key with its value; anything else (a missing,
    unreadable or malformed document, a JSON value that is no object)
    gives the empty state. *)
Theorem load_state_always_answers (w : world) :
  exists st : dict,
    load_state w = Ret st w /\
    Dict.has "recent" st = true /\
    Dict.has "favorites" st = true /\
    (forall wr d, state_file w = Present true wr (Dumped (JObj d)) ->
                  forall k v, Dict.lookup k d = Some v ->
                              Dict.lookup k st = Some v) /\
    ((forall wr d, state_file w <> Present true wr (Dumped (JObj d))) ->
     st = empty_state).
Proof.
  exists (state_of w).
  split; [apply StateFacts.load_state_ret |].
  split; [apply StateFacts.has_recent |].
  split; [apply StateFacts.has_favorites |].
  rewrite StateFacts.state_of_file. split.
  - intros wr d Hf k v Hk. rewrite Hf.
    rewrite !DictFacts.lookup_setdefault. now rewrite Hk.
  - intros Hno. destruct (state_file w) as [c | [] wr [[] |]]; try reflexivity.
    exfalso. eapply Hno. reflexivity.
Qed.

(** X2. [save_state] never raises: it stores the state or, when the
    write is refused, leaves the world as it was; and on a document that
    can be read and written, [load_state] right after [save_state]
    returns the saved state (one that has both lists). *)
Theorem save_state_safe_and_read_back :
  (forall (st : dict) (w : world),
      exists w', save_state st w = Ret tt w' /\
                 (w' = w \/
                  exists r, w' = set_doc StateDoc
                                   (Present r true (Dumped (JObj st))) w))
  /\
  (forall (st : dict) (w : world),
      usable (state_file w) = true ->
      Dict.has "recent" st = true ->
      Dict.has "favorites" st = true ->
      (save_state st ;;; load_state) w =
      Ret st (set_doc StateDoc (Present true true (Dumped (JObj st))) w)).
Proof.
  split.
  - intros st w. destruct w as [cf sf jr jw rt cd ck si so].
    destruct sf as [[] | r [] t]; eexists;
      (split; [reflexivity |]); eauto.
  - intros st w Hu Hr Hf. unfold bind.
    rewrite StateFacts.save_state_usable by exact Hu.
    rewrite StateFacts.load_state_ret.
    now rewrite StateFacts.state_of_saved.
Qed.

Section StateMoreClaims.

Variable P : Platform.

(** What [add_recent] stores, for any limit. *)
Lemma add_recent_stores (cfg : dict) (sp : path) (w : world)
    (r : list json) (L : Z) :
  usable (state_file w) = true ->
  recent_of w = Some (JArr r) ->
  Py.int (int_of_str P) (Dict.get cfg "recent_limit" (JInt 15)) = Ok L ->
  add_recent P cfg sp w =
  Ret tt (set_doc StateDoc
            (Present true true
               (Dumped (JObj (Dict.set "recent"
                                (JArr (Py.slice_to L
                                         (JStr (resolved P sp)
                                          :: filter (other (resolved P sp)) r)))
                                (state_of w)))))
            w).
Proof.
  intros Hu Hr HL. unfold add_recent, bind.
  rewrite StateFacts.load_state_ret.
  unfold recent_of in Hr. unfold Dict.get at 1. rewrite Hr. simpl.
  rewrite HL. simpl.
  now rewrite StateFacts.save_state_usable by exact Hu.
Qed.

(** X3. [add_recent] with a limit that is not positive: a limit of 0
    empties the stored list, the path just added included; a negative
    limit [-k] keeps the list with the path in front and drops its last
    [k] entries. *)
Theorem add_recent_nonpositive_limit
    (cfg : dict) (sp : path) (w : world) (r : list json) (L : Z) :
  usable (state_file w) = true ->
  recent_of w = Some (JArr r) ->
  Py.int (int_of_str P) (Dict.get cfg "recent_limit" (JInt 15)) = Ok L ->
  (L <= 0)%Z ->
  exists w1 : world,
    add_recent P cfg sp w = Ret tt w1 /\
    (L = 0%Z -> recent_of w1 = Some (JArr [])) /\
    (L < 0 ->
     recent_of w1 =
     Some (JArr (firstn (S (List.length (filter (other (resolved P sp)) r))
                         - Z.to_nat (- L))
                   (JStr (resolved P sp) :: filter (other (resolved P sp)) r))))%Z.
Proof.
  intros Hu Hr HL Hneg.
  destruct (after_add_recent (state_of w)
              (JArr (Py.slice_to L
                       (JStr (resolved P sp) :: filter (other (resolved P sp)) r)))
              w (StateFacts.has_favorites w)) as (_ & _ & Hr1).
  eexists. split; [exact (add_recent_stores cfg sp w r L Hu Hr HL) |].
  rewrite Hr1. split.
  - intros ->. reflexivity.
  - intros Hlt. unfold Py.slice_to.
    destruct (Z.leb_spec 0 L); [lia | reflexivity].
Qed.

(** X4. When [int] rejects [recent_limit] (null, a list, text that is no
    number), or the stored [recent] is a value that cannot be iterated,
    [add_recent] raises that error and nothing is written. *)
Theorem add_recent_raises_before_writing
    (cfg : dict) (sp : path) (w : world) (e : exn) :
  (Py.iter (Dict.get (state_of w) "recent" (JArr [])) = Err e \/
   ((exists r, recent_of w = Some (JArr r)) /\
    Py.int (int_of_str P) (Dict.get cfg "recent_limit" (JInt 15)) = Err e)) ->
  add_recent P cfg sp w = Raise e w.
Proof.
  intros H. unfold add_recent, bind. rewrite StateFacts.load_state_ret.
  destruct H as [H | [[r Hr] H]].
  - now rewrite H.
  - unfold recent_of in Hr. unfold Dict.get at 1. rewrite Hr. simpl.
    now rewrite H.
Qed.

(** X5. [add_recent] changes the recent list only: every other key of
    the state, the favourites among them, keeps its value, and the
    configuration document, the log, the directory tree and the console
    are as before. *)
Theorem add_recent_keeps_the_rest
    (cfg : dict) (sp : path) (w : world) (r : list json) (L : Z) :
  usable (state_file w) = true ->
  recent_of w = Some (JArr r) ->
  Py.int (int_of_str P) (Dict.get cfg "recent_limit" (JInt 15)) = Ok L ->
  exists w1 : world,
    add_recent P cfg sp w = Ret tt w1 /\
    (forall k, k <> "recent" ->
               Dict.lookup k (state_of w1) = Dict.lookup k (state_of w)) /\
    favorites_of w1 = favorites_of w /\
    config_file w1 = config_file w /\
    journal w1 = journal w /\
    root w1 = root w /\
    stdin w1 = stdin w /\
    stdout w1 = stdout w.
Proof.
  intros Hu Hr HL.
  destruct (after_add_recent (state_of w)
              (JArr (Py.slice_to L
                       (JStr (resolved P sp) :: filter (other (resolved P sp)) r)))
              w (StateFacts.has_favorites w)) as (_ & Hs1 & _).
  eexists. split; [exact (add_recent_stores cfg sp w r L Hu Hr HL) |].
  assert (Hk : forall k, k <> "recent" ->
                 Dict.lookup k (Dict.set "recent"
                   (JArr (Py.slice_to L
                      (JStr (resolved P sp) :: filter (other (resolved P sp)) r)))
                   (state_of w)) = Dict.lookup k (state_of w)).
  { intros k Hne. apply DictFacts.lookup_set_other. congruence. }
  repeat split.
  - intros k Hne. rewrite Hs1. now apply Hk.
  - unfold favorites_of. rewrite Hs1. apply Hk. discriminate.
Qed.

(** X6. [toggle_favorite] changes the favourites only: every other key
    of the state, the recent list among them, keeps its value, whichever
    way the toggle goes. *)
Theorem toggle_favorite_keeps_the_rest
    (sp : path) (w : world) (favs : list json) :
  usable (state_file w) = true ->
  favorites_of w = Some (JArr favs) ->
  exists (b : bool) (w1 : world),
    toggle_favorite P sp w = Ret b w1 /\
    b = negb (existsb (Py.is_str (resolved P sp)) favs) /\
    (forall k, k <> "favorites" ->
               Dict.lookup k (state_of w1) = Dict.lookup k (state_of w)) /\
    recent_of w1 = recent_of w /\
    config_file w1 = config_file w /\
    journal w1 = journal w /\
    root w1 = root w.
Proof.
  intros Hu Hf.
  assert (Hst : forall v,
             state_of (set_doc StateDoc
               (Present true true
                  (Dumped (JObj (Dict.set "favorites" v (state_of w))))) w)
             = Dict.set "favorites" v (state_of w)).
  { intros v. apply StateFacts.state_of_saved; rewrite DictFacts.has_set.
    - rewrite StateFacts.has_recent. apply orb_true_r.
    - reflexivity. }
  destruct (existsb (Py.is_str (resolved P sp)) favs) eqn:Hin.
  - exists false. eexists.
    split; [exact (toggle_favorite_remove P sp w favs Hu Hf Hin) |].
    split; [reflexivity |].
    split; [| split; [| repeat split]].
    + intros k Hk. rewrite Hst. apply DictFacts.lookup_set_other. congruence.
    + unfold recent_of. rewrite Hst. now apply DictFacts.lookup_set_other.
  - exists true. eexists.
    split; [exact (toggle_favorite_add P sp w favs Hu Hf Hin) |].
    split; [reflexivity |].
    split; [| split; [| repeat split]].
    + intros k Hk. rewrite Hst. apply DictFacts.lookup_set_other. congruence.
    + unfold recent_of. rewrite Hst. now apply DictFacts.lookup_set_other.
Qed.

(** X7. Two toggles of a path that is not a favourite restore the stored
    state exactly: the first appends the path, the second removes it, and
    the state read back is the one before. *)
Theorem toggle_twice_restores (sp : path) (w : world) (favs : list json) :
  usable (state_file w) = true ->
  favorites_of w = Some (JArr favs) ->
  existsb (Py.is_str (resolved P sp)) favs = false ->
  exists w1 w2 : world,
    toggle_favorite P sp w = Ret true w1 /\
    toggle_favorite P sp w1 = Ret false w2 /\
    state_of w2 = state_of w.
Proof.
  intros Hu Hf Hin.
  destruct (FavoriteFacts.after_toggle (state_of w)
              (JArr (favs ++ [JStr (resolved P sp)])) w
              (StateFacts.has_recent w)) as (Hu1 & Hf1).
  eexists. eexists.
  split; [exact (toggle_favorite_add P sp w favs Hu Hf Hin) |].
  split.
  - exact (toggle_favorite_remove P sp _ _ Hu1 Hf1
             (FavoriteFacts.existsb_snoc (resolved P sp) favs)).
  - rewrite StateFacts.state_of_saved.
    + rewrite StateFacts.state_of_saved.
      * rewrite DictFacts.dict_set_twice, filter_app.
        rewrite StateMore.filter_other_absent by exact Hin.
        simpl. unfold other at 1. simpl. rewrite String.eqb_refl. simpl.
        rewrite app_nil_r. now apply StateMore.dict_set_same.
      * rewrite DictFacts.has_set, StateFacts.has_recent. apply orb_true_r.
      * now rewrite DictFacts.has_set.
    + rewrite DictFacts.has_set.
      rewrite StateFacts.state_of_saved.
      * rewrite DictFacts.has_set, StateFacts.has_recent. apply orb_true_r.
      * rewrite DictFacts.has_set, StateFacts.has_recent. apply orb_true_r.
      * now rewrite DictFacts.has_set.
    + now rewrite DictFacts.has_set.
Qed.

(** X8. A favourites list that holds a value that cannot be hashed (a
    nested list or object) makes [is_favorite] raise [TypeError], from
    [set(...)], while [toggle_favorite] on the same state still returns. *)
Theorem is_favorite_needs_hashable (sp : path) (w : world) (favs : list json) :
  usable (state_file w) = true ->
  favorites_of w = Some (JArr favs) ->
  forallb Py.hashable favs = false ->
  is_favorite P sp w = Raise TypeError w /\
  exists (b : bool) (w1 : world), toggle_favorite P sp w = Ret b w1.
Proof.
  intros Hu Hf Hh. split.
  - unfold is_favorite, bind. rewrite StateFacts.load_state_ret.
    unfold favorites_of in Hf. unfold Dict.get. rewrite Hf.
    unfold Py.set. simpl. now rewrite Hh.
  - destruct (existsb (Py.is_str (resolved P sp)) favs) eqn:Hin.
    + eexists. eexists. exact (toggle_favorite_remove P sp w favs Hu Hf Hin).
    + eexists. eexists. exact (toggle_favorite_add P sp w favs Hu Hf Hin).
Qed.

End StateMoreClaims.

(** ** The configuration document *)

Module ConfigMore.


(** Nothing is added to a document that has every default key. *)
Lemma migrate_complete (defaults cfg : dict) :
  (forall k, In k (Dict.keys defaults) -> Dict.has k cfg = true) ->
  migrate defaults cfg = cfg.
Proof.
  unfold migrate. induction defaults as [| [k v] t IH]; simpl; intros H; auto.
  rewrite DictFacts.setdefault_present by (apply H; now left).
  apply IH. intros k' Hk'. apply H. now right.
Qed.

End ConfigMore.

Section ConfigMoreClaims.

Variable P : Platform.


Lemma load_config_object_with_base (w : world) (wr : bool) (d : dict) (s : string) :
  config_file w = Present true wr (Dumped (JObj d)) ->
  Dict.lookup "base_dir" d = Some (JStr s) ->
  load_or_create_config P w =
  Ret (migrate
         (default_config
            (Path.of_string
               (Path.to_string (resolve P (expanduser P (Path.of_string s))))))
         (Dict.set "base_dir"
            (JStr (Path.to_string (resolve P (expanduser P (Path.of_string s)))))
            d))
      (if wr
       then set_doc ConfigDoc
              (Present true true
                 (Dumped (JObj
                    (migrate
                       (default_config
                          (Path.of_string
                             (Path.to_string
                                (resolve P (expanduser P (Path.of_string s))))))
                       (Dict.set "base_dir"
                          (JStr (Path.to_string
                                   (resolve P (expanduser P (Path.of_string s)))))
                          d))))) w
       else w).
Proof.
  intros Hc Hb. destruct w as [cf sf jr jw rt cd ck si so].
  simpl in Hc. subst cf.
  unfold load_or_create_config, bind, try_except, Io.file_exists, gets,
    Io.read_text, Io.write_text, Io.json_dumps, lift, ret.
  cbn [get_doc config_file negb Io.json_loads any_exception Py.contains].
  unfold Dict.has. rewrite Hb. cbn [getitem]. rewrite Hb.
  cbn [to_path setitem as_dict].
  rewrite DictFacts.lookup_set_same. cbn [to_path].
  destruct wr; reflexivity.
Qed.

(** X9. A configuration document that has every default key and whose
    [base_dir] is already in resolved form is returned as it is stored,
    and the document on disk keeps that content. *)
Theorem load_config_complete_is_unchanged
    (w : world) (wr : bool) (cfg : dict) (s : string) :
  config_file w = Present true wr (Dumped (JObj cfg)) ->
  Dict.lookup "base_dir" cfg = Some (JStr s) ->
  Path.to_string (resolve P (expanduser P (Path.of_string s))) = s ->
  (forall k, In k (Dict.keys (default_config (script_dir P))) ->
             Dict.has k cfg = true) ->
  exists w' : world,
    load_or_create_config P w = Ret cfg w' /\
    config_file w' = Present true wr (Dumped (JObj cfg)) /\
    state_file w' = state_file w /\
    root w' = root w.
Proof.
  intros Hc Hb Hfix Hall.
  rewrite (load_config_object_with_base w wr cfg s Hc Hb), Hfix.
  rewrite (StateMore.dict_set_same _ _ _ Hb).
  rewrite ConfigMore.migrate_complete by exact Hall.
  eexists. split; [reflexivity |].
  destruct wr; [repeat split | now repeat split].
Qed.



End ConfigMoreClaims.

(** ** Listing a directory *)

Module ListingFacts.

Lemma insert_by_key_perm (key : path -> string) (x : path) (l : list path) :
  Permutation (insert_by_key key x l) (x :: l).
Proof.
  induction l as [| y t IH]; simpl; [apply Permutation_refl |].
  destruct (String.leb (key x) (key y)); [apply Permutation_refl |].
  eapply Permutation_trans; [apply perm_skip, IH | apply perm_swap].
Qed.

(** [sorted] returns the same elements. *)
Lemma sorted_by_key_perm (key : path -> string) (l : list path) :
  Permutation (sorted_by_key key l) l.
Proof.
  unfold sorted_by_key. induction l as [| x t IH]; simpl; [constructor |].
  eapply Permutation_trans; [apply insert_by_key_perm | now apply perm_skip].
Qed.

Lemma leb_false_flip (a b : string) :
  String.leb a b = false -> String.leb b a = true.
Proof. intros H. destruct (String.leb_total a b); congruence. Qed.

Lemma insert_by_key_sorted (key : path -> string) (x : path) (l : list path) :
  Sorted (fun a b => String.leb (key a) (key b) = true) l ->
  Sorted (fun a b => String.leb (key a) (key b) = true) (insert_by_key key x l).
Proof.
  induction l as [| y t IH]; simpl; intros Hs.
  - repeat constructor.
  - destruct (String.leb (key x) (key y)) eqn:E.
    + constructor; [exact Hs | now constructor].
    + apply Sorted_inv in Hs as [Ht Hhd]. constructor; [now apply IH |].
      apply leb_false_flip in E.
      destruct t as [| z t']; simpl; [now constructor |].
      destruct (String.leb (key x) (key z)); constructor; auto.
      now apply HdRel_inv in Hhd.
Qed.

(** [sorted] returns them in non-decreasing order of the key. *)
Lemma sorted_by_key_sorted (key : path -> string) (l : list path) :
  Sorted (fun a b => String.leb (key a) (key b) = true) (sorted_by_key key l).
Proof.
  unfold sorted_by_key. induction l as [| x t IH]; simpl; [constructor |].
  now apply insert_by_key_sorted.
Qed.


(** One more part behind the path of an open directory is never refused. *)
Lemma walk_child_not_refused (xs : list string) :
  forall (above : list node) (cur : node) (name : string)
         (entries : list (string * node)),
    Fs.walk above cur xs = Ok (Dir true entries) ->
    Fs.walk above cur (xs ++ [name]) <> Err PermissionError.
Proof.
  induction xs as [| x xs' IH]; intros above cur name entries H.
  - simpl in H. injection H as ->. simpl.
    destruct (String.eqb name "..").
    + destruct above; discriminate.
    + destruct (Fs.find_entry name entries); discriminate.
  - simpl in *. destruct cur as [| | [] es]; try discriminate.
    destruct (String.eqb x "..").
    + destruct above as [| up above']; eapply IH; exact H.
    + destruct (Fs.find_entry x es); [| discriminate].
      eapply IH. exact H.
Qed.

Lemma child_not_refused (w : world) (folder : path) (name : string)
    (entries : list (string * node)) :
  Fs.stat (root w) (cwd w) folder = Ok (Dir true entries) ->
  refused w (Path.child folder name) = false.
Proof.
  intros H.
  assert (Hne : Fs.stat (root w) (cwd w) (Path.child folder name)
                <> Err PermissionError).
  { unfold Fs.stat, Path.child in *. destruct folder as [| a rest].
    - simpl in H. rewrite app_nil_r in H. simpl.
      destruct (String.eqb name "/"); [discriminate |].
      eapply walk_child_not_refused. exact H.
    - simpl in *. destruct (String.eqb a "/").
      + eapply walk_child_not_refused. exact H.
      + change (a :: rest ++ [name])%list with ((a :: rest) ++ [name])%list.
        rewrite app_assoc. eapply walk_child_not_refused. exact H. }
  unfold refused.
  destruct (Fs.stat (root w) (cwd w) (Path.child folder name)) as [n | []];
    congruence.
Qed.

Lemma children_not_refused (w : world) (folder p : path) :
  In p (children w folder) -> refused w p = false.
Proof.
  unfold children.
  destruct (Fs.stat (root w) (cwd w) folder) as [[| | [] es] | e] eqn:E;
    simpl; try tauto.
  intros Hin. apply in_map_iff in Hin as (e & <- & _).
  eapply child_not_refused. exact E.
Qed.


End ListingFacts.



(** ** More on searching *)

Module SearchMore.

Lemma lower_char_twice (c : ascii) :
  Str.lower_char (Str.lower_char c) = Str.lower_char c.
Proof.
  unfold Str.lower_char at 2.
  destruct ((65 <=? nat_of_ascii c) && (nat_of_ascii c <=? 90))%nat eqn:E.
  - pose proof E as E'. apply andb_true_iff in E as [E1 E2].
    apply Nat.leb_le in E1. apply Nat.leb_le in E2.
    unfold Str.lower_char.
    rewrite nat_ascii_embedding by lia.
    destruct (Nat.leb_spec (nat_of_ascii c + 32) 90); [lia |].
    now rewrite andb_false_r, E'.
  - unfold Str.lower_char. now rewrite E.
Qed.

Lemma lower_twice (s : string) : Str.lower (Str.lower s) = Str.lower s.
Proof.
  induction s as [| c t IH]; simpl; auto.
  now rewrite lower_char_twice, IH.
Qed.

Lemma lower_app (a b : string) :
  Str.lower (a ++ b) = Str.lower a ++ Str.lower b.
Proof. induction a as [| c t IH]; simpl; auto. now rewrite IH. Qed.

Lemma rstrip_blank (s : string) : Str.blank s = true -> Str.rstrip s = "".
Proof.
  induction s as [| c t IH]; simpl; auto.
  intros H. apply andb_true_iff in H as [Hc Ht]. now rewrite IH, Hc.
Qed.

Lemma rstrip_app_blank (s b : string) :
  Str.blank b = true -> Str.rstrip (s ++ b) = Str.rstrip s.
Proof.
  intros Hb. induction s as [| c t IH]; simpl.
  - now apply rstrip_blank.
  - now rewrite IH.
Qed.

Lemma lstrip_app (s b : string) :
  Str.lstrip (s ++ b) =
  if Str.blank s then Str.lstrip b else Str.lstrip s ++ b.
Proof.
  induction s as [| c t IH]; simpl; auto.
  destruct (Str.is_space c); simpl; auto.
Qed.

(** Blanks around a string do not change what is left of it. *)
Lemma strip_padded (a s b : string) :
  Str.blank a = true -> Str.blank b = true ->
  Str.strip (a ++ s ++ b) = Str.strip s.
Proof.
  intros Ha Hb. unfold Str.strip.
  rewrite lstrip_app, Ha, lstrip_app.
  destruct (Str.blank s) eqn:Hs.
  - rewrite (StrFacts.lstrip_blank b Hb), (StrFacts.lstrip_blank s Hs).
    reflexivity.
  - now apply rstrip_app_blank.
Qed.

Lemma last_snoc (xs : list string) (x d : string) :
  last (xs ++ [x])%list d = x.
Proof.
  induction xs as [| y t IH]; simpl; auto.
  destruct (t ++ [x])%list eqn:E; [destruct t; discriminate | exact IH].
Qed.

(** The name of a path that ends in a part [*.py] is that part. *)
Lemma name_of_py_child (xs : list string) (x : string) :
  Fs.matches_py x = true -> Path.name (xs ++ [x])%list = x.
Proof.
  intros Hx. unfold Path.name.
  destruct xs as [| y t]; simpl.
  - destruct (String.eqb x "/") eqn:E; auto.
    apply String.eqb_eq in E. subst. discriminate.
  - destruct (t ++ [x])%list eqn:E; [destruct t; discriminate |].
    rewrite <- E. change (last (y :: t ++ [x]) "") with (last ((y :: t) ++ [x]) "").
    apply last_snoc.
Qed.

(** Every path [rglob] yields is the unit path, some directories, and a
    name that ends in [.py]. *)
Lemma rglob_node_shape (n : node) :
  forall (prefix p : path),
    In p (Fs.rglob_node prefix n) ->
    exists dirs name,
      p = (prefix ++ dirs ++ [name])%list /\ Fs.matches_py name = true.
Proof.
  induction n as [| | open entries IH] using node_nested_ind;
    intros prefix p; simpl; try tauto.
  destruct open; [| simpl; tauto].
  intros H. apply in_app_or in H as [H | H].
  - apply in_map_iff in H as (e & <- & He). apply filter_In in He as [_ He].
    exists [], (fst e). split; [reflexivity | exact He].
  - apply in_flat_map in H as (e & He & H).
    destruct (Fs.is_dir_node (snd e)); [| simpl in H; tauto].
    rewrite Forall_forall in IH.
    destruct (IH e He _ _ H) as (dirs & name & -> & Hname).
    exists (fst e :: dirs), name. split; [| exact Hname].
    unfold Path.child. now rewrite <- app_assoc.
Qed.

End SearchMore.

(** X14. What [search_scripts] returns, for a configuration whose
    [ignore_dirs] can be made a set: every hit lies below the unit path,
    is a regular file, has a name that ends in [.py] (in lower case, as
    the pattern of [rglob] has it) and does not start with two
    underscores, and its lowered name contains the stripped, lowered
    query; the hits come in non-decreasing order of the lowered name. *)
Theorem search_hits_are_matching_scripts
    (cfg : dict) (u : path) (q : string) (w : world) (ig : list json) :
  Py.set (Dict.get cfg "ignore_dirs" (JArr [])) = Ok ig ->
  exists hits : list path,
    search_scripts cfg u q w = Ret hits w /\
    Sorted by_name hits /\
    forall p, In p hits ->
      (exists dirs name, p = (u ++ dirs ++ [name])%list) /\
      is_file_at w p = true /\
      Fs.matches_py (Path.name p) = true /\
      Str.startswith (Path.name p) "__" = false /\
      Str.contains (Str.lower (Path.name p)) (Str.strip (Str.lower q)) = true.
Proof.
  intros Hset. eexists.
  split; [exact (SearchFacts.search_scripts_eq cfg u q w ig Hset) |].
  split; [apply ListingFacts.sorted_by_key_sorted |].
  intros p Hp. apply SearchFacts.in_sorted_by_key in Hp.
  apply filter_In in Hp as [Hp Hq].
  apply SearchFacts.in_listing in Hp as [Hc Hel].
  unfold eligible in Hel.
  apply andb_true_iff in Hel as [Hel _].
  apply andb_true_iff in Hel as [Hfile Hdunder].
  apply negb_true_iff in Hdunder.
  unfold candidates in Hc.
  destruct (Fs.stat (root w) (cwd w) u) as [n | e]; [| simpl in Hc; tauto].
  apply SearchMore.rglob_node_shape in Hc as (dirs & name & -> & Hname).
  split; [now exists dirs, name |].
  split; [exact Hfile |].
  unfold name_has, name_lower in Hq.
  rewrite app_assoc in *.
  rewrite (SearchMore.name_of_py_child _ _ Hname) in *.
  repeat split; assumption.
Qed.

(** X15. The query of [search_scripts] counts without its letter case and
    without the blanks around it: a query, its lowered form, and the
    query between blanks give the same outcome. *)
Theorem search_normalises_the_query
    (cfg : dict) (u : path) (q a b : string) (w : world) :
  Str.blank a = true ->
  Str.blank b = true ->
  search_scripts cfg u (Str.lower q) w = search_scripts cfg u q w /\
  search_scripts cfg u (a ++ q ++ b) w = search_scripts cfg u q w.
Proof.
  intros Ha Hb. unfold search_scripts. split.
  - now rewrite SearchMore.lower_twice.
  - rewrite !SearchMore.lower_app.
    rewrite (StrFacts.lower_blank a Ha), (StrFacts.lower_blank b Hb).
    now rewrite (SearchMore.strip_padded a (Str.lower q) b Ha Hb).
Qed.

(** X16. [search_scripts] builds the set of [ignore_dirs] outside its
    [try]: a value that cannot be iterated, or a list that holds a list
    or an object, raises [TypeError] to the caller before the tree is
    looked at. *)
Theorem search_raises_on_bad_ignore_dirs
    (cfg : dict) (u : path) (q : string) (w : world) (e : exn) :
  Py.set (Dict.get cfg "ignore_dirs" (JArr [])) = Err e ->
  e = TypeError /\ search_scripts cfg u q w = Raise TypeError w.
Proof.
  intros H.
  assert (He : e = TypeError).
  { unfold Py.set in H.
    destruct (Py.iter (Dict.get cfg "ignore_dirs" (JArr []))) as [l | e'] eqn:E.
    - destruct (forallb Py.hashable l); congruence.
    - destruct (Dict.get cfg "ignore_dirs" (JArr [])); simpl in E; congruence. }
  subst e. split; [reflexivity |].
  unfold search_scripts, bind. now rewrite H.
Qed.

(** X17. A unit path that is missing, refused, a regular file, or a
    directory that cannot be listed does not make [search_scripts] fail:
    it returns the empty list. *)
Theorem search_of_no_directory_is_empty
    (cfg : dict) (u : path) (q : string) (w : world) (ig : list json) :
  Py.set (Dict.get cfg "ignore_dirs" (JArr [])) = Ok ig ->
  (forall entries, Fs.stat (root w) (cwd w) u <> Ok (Dir true entries)) ->
  search_scripts cfg u q w = Ret [] w.
Proof.
  intros Hset Hno.
  rewrite (SearchFacts.search_scripts_eq cfg u q w ig Hset).
  unfold listing, candidates.
  destruct (Fs.stat (root w) (cwd w) u) as [[| | [] es] | e]; try reflexivity.
  exfalso. eapply Hno. reflexivity.
Qed.

(** ** Favourite scripts *)

(** X18. [get_favorite_scripts] on stored strings none of which is
    refused by permissions returns, in the world it found, exactly the
    stored favourites that still are scripts, in non-decreasing order of
    the lowered name; nothing is removed from the document. *)
Theorem get_favorite_scripts_lists_existing
    (w : world) (paths : list string) :
  favorites_of w = Some (JArr (map JStr paths)) ->
  Forall (fun s => refused w (Path.of_string s) = false) paths ->
  exists out : list path,
    get_favorite_scripts w = Ret out w /\
    Permutation out (filter (is_script_at w) (stored_paths paths)) /\
    Sorted by_name out.
Proof.
  intros Hf Hok. eexists. split; [| split].
  - unfold get_favorite_scripts, bind. rewrite StateFacts.load_state_ret.
    unfold favorites_of in Hf. unfold Dict.get. rewrite Hf.
    cbn [Py.iter lift ret]. rewrite (existing_scripts_eq w paths Hok).
    reflexivity.
  - apply ListingFacts.sorted_by_key_perm.
  - apply ListingFacts.sorted_by_key_sorted.
Qed.

(** ** The log and the run *)

Section RunMore.

Variable P : Platform.

(** [log_event] returns and leaves everything but the log alone. *)
Lemma log_event_keeps (cfg : dict) (message : string) (w : world) :
  exists w' : world,
    log_event P cfg message w = Ret tt w' /\
    config_file w' = config_file w /\
    state_file w' = state_file w /\
    root w' = root w /\
    stdin w' = stdin w /\
    stdout w' = stdout w.
Proof.
  unfold log_event, try_except, bind, gets, Io.append_line.
  destruct (Dict.get cfg "log_file" (JStr "dashboard.log"));
    try (exists w; simpl; repeat split; reflexivity).
  simpl. destruct (journal_writable w).
  - eexists. split; [reflexivity |]. simpl. repeat split.
  - exists w. simpl. repeat split.
Qed.

(** X19. [log_event] never raises and touches nothing but the log: when
    [log_file] is a string and the log can be written it appends one
    line, the time stamp in brackets before the message; otherwise it
    appends nothing. *)
Theorem log_event_appends_or_skips (cfg : dict) (message : string) (w : world) :
  exists w' : world,
    log_event P cfg message w = Ret tt w' /\
    journal w' =
      match Dict.get cfg "log_file" (JStr "dashboard.log") with
      | JStr s =>
          if journal_writable w
          then (journal w
                ++ [(resolve P (Path.join (script_dir P) s),
                     ("[" ++ clock w ++ "] " ++ message ++ nl)%string)])%list
          else journal w
      | _ => journal w
      end /\
    config_file w' = config_file w /\
    state_file w' = state_file w /\
    root w' = root w /\
    stdin w' = stdin w /\
    stdout w' = stdout w /\
    journal_writable w' = journal_writable w.
Proof.
  unfold log_event, try_except, bind, gets, Io.append_line.
  destruct (Dict.get cfg "log_file" (JStr "dashboard.log"));
    try (exists w; simpl; repeat split; reflexivity).
  simpl. destruct (journal_writable w) eqn:E.
  - eexists. split; [reflexivity |]. simpl. repeat split. exact E.
  - exists w. simpl. rewrite E. repeat split; auto.
Qed.

(** The computation that follows a step that returns. *)
Lemma bind_ret {A B : Type} (m : M A) (k : A -> M B) (w : world)
    (a : A) (w' : world) :
  m w = Ret a w' -> bind m k w = k a w'.
Proof. intros H. unfold bind. now rewrite H. Qed.

(** X20. A confirmed run without arguments (the answer [s], then Enter
    at the prompt for arguments) records the script before it starts it:
    the child process is started, with the interpreter and the path of
    the script as its command and the folder of the script as its working
    directory, in a world where the script already is at the front of the
    stored recent list; its return code gives the completed exit, and an
    exception of the launch is printed and gives the failed exit instead
    of being raised. *)
Theorem run_script_records_then_launches
    (cfg : dict) (sp : path) (w : world) (ans raw : string)
    (rest : list string) (r : list json) (L : Z) :
  Py.truthy (Dict.get cfg "confirm_before_run" (JBool true)) = true ->
  Py.truthy (Dict.get cfg "ask_args_before_run" (JBool true)) = true ->
  stdin w = ans :: raw :: rest ->
  String.eqb (Str.lower (Str.strip ans)) "s" = true ->
  Str.blank raw = true ->
  usable (state_file w) = true ->
  recent_of w = Some (JArr r) ->
  Py.int (int_of_str P) (Dict.get cfg "recent_limit" (JInt 15)) = Ok L ->
  exists w3 : world,
    recent_of w3 =
      Some (JArr (Py.slice_to L
                    (JStr (resolved P sp) :: filter (other (resolved P sp)) r))) /\
    stdin w3 = rest /\
    config_file w3 = config_file w /\
    root w3 = root w /\
    run_script P cfg sp w =
      match subprocess_run P [executable P; Path.to_string sp]
              (Path.to_string (Path.parent sp)) w3 with
      | Ret code w4 =>
          (Io.print (nl ++ rule60) ;;;
           Io.print ("Finalizó con código: " ++ str_of_int code) ;;;
           pause pause_msg ;;;
           ret (Completed code)) w4
      | Raise e w4 =>
          (Io.print ("Error al ejecutar: " ++ describe P e) ;;;
           pause pause_msg ;;;
           ret (LaunchFailed e)) w4
      end.
Proof.
  intros Hc Ha Hin Hs Hraw Hu Hr HL.
  assert (Hstrip : Str.strip raw = "").
  { unfold Str.strip. now rewrite (StrFacts.lstrip_blank raw Hraw). }
  unfold run_script. rewrite Hc, Ha.
  erewrite bind_ret.
  2:{ unfold bind, Io.input. rewrite Hin. unfold ret. rewrite Hs. reflexivity. }
  cbn [negb].
  erewrite bind_ret.
  2:{ unfold bind, Io.input. cbn [stdin Io.with_console]. rewrite Hstrip.
      reflexivity. }
  erewrite bind_ret by reflexivity.
  erewrite bind_ret by reflexivity.
  erewrite bind_ret by reflexivity.
  erewrite bind_ret by reflexivity.
  erewrite bind_ret by reflexivity.
  match goal with
  | |- context [ bind (log_event P cfg ?msg) ?k ?wx ] => set (w2 := wx)
  end.
  assert (Hw2 : state_file w2 = state_file w /\ stdin w2 = rest /\
                config_file w2 = config_file w /\ root w2 = root w)
    by (repeat split).
  destruct Hw2 as (Hsf2 & Hsi2 & Hcf2 & Hrt2).
  destruct (log_event_keeps cfg
              ("RUN " ++ Path.to_string sp ++ " args=" ++ repr_list P []) w2)
    as (w2' & Hlog & Hcf & Hsf & Hrt & Hsi & _).
  rewrite (bind_ret _ _ _ _ _ Hlog).
  assert (Hu' : usable (state_file w2') = true) by (now rewrite Hsf, Hsf2).
  assert (Hr' : recent_of w2' = Some (JArr r)).
  { unfold recent_of. rewrite (StateMore.state_of_same_file w2' w); [exact Hr |].
    now rewrite Hsf, Hsf2. }
  rewrite (bind_ret _ _ _ _ _ (add_recent_stores P cfg sp w2' r L Hu' Hr' HL)).
  destruct (after_add_recent (state_of w2')
              (JArr (Py.slice_to L
                       (JStr (resolved P sp) :: filter (other (resolved P sp)) r)))
              w2' (StateFacts.has_favorites w2')) as (_ & _ & Hr3).
  eexists. split; [exact Hr3 |].
  split; [cbn [stdin set_doc]; now rewrite Hsi |].
  split; [cbn [config_file set_doc]; now rewrite Hcf |].
  split; [cbn [root set_doc]; now rewrite Hrt |].
  unfold bind, try_except.
  destruct (subprocess_run P [executable P; Path.to_string sp]
              (Path.to_string (Path.parent sp)) _); reflexivity.
Qed.

End RunMore.

(** ** Paths relative to the base directory *)

Module RelFacts.

Lemma strip_prefix_app (b rel : path) :
  strip_prefix (b ++ rel)%list b = Ok rel.
Proof.
  induction b as [| x t IH]; simpl; [now destruct rel |].
  now rewrite String.eqb_refl.
Qed.

Lemma is_absolute_app (b rel : path) :
  b <> [] -> Path.is_absolute (b ++ rel)%list = Path.is_absolute b.
Proof. destruct b; [congruence | reflexivity]. Qed.

End RelFacts.

(** X21. [relpath_str] of a path whose resolved form lies below the
    resolved base is the part behind the base, joined by slashes; for the
    base itself that is a single dot. *)
Theorem relpath_str_below_base (P : Platform) (p base rel : path) :
  resolve P base <> [] ->
  resolve P p = (resolve P base ++ rel)%list ->
  relpath_str P p base = Path.to_string rel /\
  relpath_str P base base = ".".
Proof.
  intros Hne Hp. unfold relpath_str, relative_to. split.
  - rewrite Hp, RelFacts.is_absolute_app by exact Hne.
    rewrite Bool.eqb_reflx. now rewrite RelFacts.strip_prefix_app.
  - rewrite Bool.eqb_reflx.
    rewrite <- (app_nil_r (resolve P base)) at 1.
    now rewrite RelFacts.strip_prefix_app.
Qed.

(** ** Opening the editor and the file manager *)

Section DeskMore.

Variable P : Platform.
Variable D : Desktop.

(** X22. Nothing the openers raise escapes [open_folder]: it returns in
    the world the opener left, having called [os.startfile] on Windows,
    [open] on macOS and [xdg-open] elsewhere, with the path. *)
Theorem open_folder_never_raises (p : path) (w : world) :
  open_folder D p w =
  Ret tt (final_world
            ((if os_nt D then startfile D (Path.to_string p)
              else if os_darwin D then popen D ["open"; Path.to_string p]
              else popen D ["xdg-open"; Path.to_string p]) w)).
Proof.
  unfold open_folder, try_except.
  destruct (os_nt D); [| destruct (os_darwin D)];
    match goal with
    | |- context [ match ?m with _ => _ end ] => destruct m as [[] w' | e w']
    end; reflexivity.
Qed.

(** X23. A [preferred_editor] that is truthy and not a string (a
    number, [true], a list) makes [open_in_editor] raise
    [AttributeError] at once: nothing is logged and nothing is opened. *)
Theorem open_in_editor_needs_a_string (cfg : dict) (sp : path) (w : world) :
  Py.truthy (Dict.get cfg "preferred_editor" JNull) = true ->
  (forall s, Dict.get cfg "preferred_editor" JNull <> JStr s) ->
  open_in_editor P D cfg sp w = Raise AttributeError w.
Proof.
  intros Ht Hns. unfold open_in_editor, bind, editor_command.
  rewrite Ht.
  destruct (Dict.get cfg "preferred_editor" JNull) eqn:E; try reflexivity.
  exfalso. eapply Hns. reflexivity.
Qed.

(** X24. Without an editor (the key missing, a falsy value, or a string
    of blanks) [open_in_editor] logs the event and hands the path to the
    opener of the platform, which outside Windows is [xdg-open] also on
    macOS. *)
Theorem open_in_editor_default_opener (cfg : dict) (sp : path) (w : world) :
  Py.truthy (Dict.get cfg "preferred_editor" JNull) = false \/
  (exists s, Dict.get cfg "preferred_editor" JNull = JStr s /\
             Str.blank s = true) ->
  os_nt D = false ->
  exists w1 : world,
    log_event P cfg ("OPEN_EDITOR " ++ Path.to_string sp) w = Ret tt w1 /\
    open_in_editor P D cfg sp w =
    try_except (popen D ["xdg-open"; Path.to_string sp])
               any_exception
               (fun e =>
                  Io.print ("No se pudo abrir el editor: " ++ describe P e) ;;;
                  pause pause_msg)
               w1.
Proof.
  intros Hed Hnt.
  assert (Hcmd : editor_command cfg = Ok "").
  { unfold editor_command. destruct Hed as [Hf | (s & Hs & Hb)].
    - now rewrite Hf.
    - rewrite Hs. destruct (Py.truthy (JStr s)); [| reflexivity].
      unfold Str.strip. now rewrite (StrFacts.lstrip_blank s Hb). }
  destruct (log_event_keeps P cfg ("OPEN_EDITOR " ++ Path.to_string sp) w)
    as (w1 & Hlog & _).
  exists w1. split; [exact Hlog |].
  unfold open_in_editor. rewrite Hcmd. cbn [lift].
  rewrite (bind_ret _ _ _ _ _ (eq_refl : ret "" w = Ret "" w)).
  rewrite (bind_ret _ _ _ _ _ Hlog).
  cbn [Str.is_empty]. now rewrite Hnt.
Qed.

(** X25. With an editor command, [open_in_editor] starts the words of
    the command followed by the path; whatever goes wrong after the log
    entry (the command cannot be split, the editor cannot be started) is
    printed, so that the only exception that can leave the function is
    the end of input met by the closing [pause]. *)
Theorem open_in_editor_reports_failures
    (cfg : dict) (sp : path) (w : world) (editor : string) :
  editor_command cfg = Ok editor ->
  (exists w1 : world,
      log_event P cfg ("OPEN_EDITOR " ++ Path.to_string sp) w = Ret tt w1 /\
      forall parts,
        Str.is_empty editor = false ->
        shlex_split P editor = Some parts ->
        forall w2, popen D (parts ++ [Path.to_string sp]) w1 = Ret tt w2 ->
                   open_in_editor P D cfg sp w = Ret tt w2)
  /\
  (exists w' : world,
      open_in_editor P D cfg sp w = Ret tt w' \/
      open_in_editor P D cfg sp w = Raise EOFError w').
Proof.
  intros Hcmd.
  destruct (log_event_keeps P cfg ("OPEN_EDITOR " ++ Path.to_string sp) w)
    as (w1 & Hlog & _).
  assert (Hopen :
             open_in_editor P D cfg sp w =
             try_except
               (if Str.is_empty editor then
                  if os_nt D then startfile D (Path.to_string sp)
                  else popen D ["xdg-open"; Path.to_string sp]
                else
                  parts <- lift (match shlex_split P editor with
                                 | Some l => Ok l
                                 | None => Err ValueError
                                 end) ;;
                  popen D (parts ++ [Path.to_string sp]))
               any_exception
               (fun e =>
                  Io.print ("No se pudo abrir el editor: " ++ describe P e) ;;;
                  pause pause_msg)
               w1).
  { unfold open_in_editor. rewrite Hcmd. cbn [lift].
    rewrite (bind_ret _ _ _ _ _ (eq_refl : ret editor w = Ret editor w)).
    now rewrite (bind_ret _ _ _ _ _ Hlog). }
  split.
  - exists w1. split; [exact Hlog |].
    intros parts Hne Hsplit w2 Hpopen.
    rewrite Hopen, Hne, Hsplit. unfold try_except, bind. cbn [lift ret].
    now rewrite Hpopen.
  - rewrite Hopen. unfold try_except.
    match goal with
    | |- context [ match ?m w1 with _ => _ end ] =>
        destruct (m w1) as [[] w2 | e w2]
    end.
    + exists w2. now left.
    + cbn [any_exception]. unfold bind, Io.print, Io.emit, pause, bind, Io.input.
      cbn [stdin Io.with_console].
      destruct (stdin w2); eexists; [right | left]; reflexivity.
Qed.

(** Action 3 of the script menu runs the script with
    [confirm_before_run] inverted and leaves the configuration with the
    value it had: reading the flag afterwards gives what it gave before,
    and no other key has changed. *)
Lemma run_inverted_restores_the_flag (cfg : dict) (sp : path) (w : world) :
  let flipped :=
    Dict.set "confirm_before_run"
      (JBool (negb (Py.truthy (Dict.get cfg "confirm_before_run" (JBool true)))))
      cfg in
  snd (run_inverted P cfg sp w) = run_script P flipped sp w /\
  Py.truthy (Dict.get flipped "confirm_before_run" (JBool true)) =
    negb (Py.truthy (Dict.get cfg "confirm_before_run" (JBool true))) /\
  Dict.get (fst (run_inverted P cfg sp w)) "confirm_before_run" (JBool true) =
    Dict.get cfg "confirm_before_run" (JBool true) /\
  (forall k, k <> "confirm_before_run" ->
             Dict.lookup k (fst (run_inverted P cfg sp w)) = Dict.lookup k cfg).
Proof.
  intros flipped. unfold run_inverted. cbn [fst snd]. fold flipped.
  split; [reflexivity |]. split; [| split].
  - unfold flipped, Dict.get at 1. now rewrite DictFacts.lookup_set_same.
  - unfold Dict.get at 1. now rewrite DictFacts.lookup_set_same.
  - intros k Hk. unfold flipped.
    rewrite !DictFacts.lookup_set_other by congruence. reflexivity.
Qed.

End DeskMore.

(** ** The entry point *)

Section MainMore.

Variable P : Platform.



End MainMore.

(** ** Showing the code *)

Module PreviewFacts.

Lemma console_twice (i i' : list string) (o o' : list event) (w : world) :
  Io.with_console i o (Io.with_console i' o' w) = Io.with_console i o w.
Proof. reflexivity. Qed.

(** The paging loop does not depend on fuel beyond what it needs. *)
Lemma preview_pages_fuel (lines : list string) :
  forall (f1 f2 start : nat) (w : world),
    List.length lines - start <= 60 * f1 ->
    List.length lines - start <= 60 * f2 ->
    preview_pages f1 lines start w = preview_pages f2 lines start w.
Proof.
  induction f1 as [| f1 IH]; intros f2 start w H1 H2.
  - destruct f2 as [| f2]; [reflexivity |]. simpl.
    destruct (Nat.ltb_spec start (List.length lines)); [lia | reflexivity].
  - destruct f2 as [| f2]; simpl.
    + destruct (Nat.ltb_spec start (List.length lines)); [lia | reflexivity].
    + destruct (Nat.ltb_spec start (List.length lines)); [| reflexivity].
      unfold bind. destruct (Io.print _ w) as [[] w1 | e w1]; [| reflexivity].
      destruct (Nat.leb_spec (List.length lines) (start + 60)); [reflexivity |].
      destruct (Io.input more_prompt w1) as [resp w2 | e w2]; [| reflexivity].
      destruct (String.eqb (Str.lower (Str.strip resp)) "q"); [reflexivity |].
      apply IH; lia.
Qed.


(** The loop left by a [q]: the pages so far, and the prompt. *)
Lemma preview_pages_quit (lines : list string) (answers : list string) :
  forall (fuel start : nat) (w : world) (quit : string) (rest : list string),
    stdin w = (answers ++ quit :: rest)%list ->
    forallb goes_on answers = true ->
    goes_on quit = false ->
    start + 60 * S (List.length answers) < List.length lines ->
    List.length answers < fuel ->
    preview_pages fuel lines start w =
    Ret tt (Io.with_console rest
              (stdout w ++ paged lines start answers ++ [Asked more_prompt]) w).
Proof.
  induction answers as [| a t IH];
    intros fuel start w quit rest Hin Hgo Hq Hlo Hf.
  - destruct fuel as [| fuel]; [inversion Hf |]. simpl in *.
    destruct (Nat.ltb_spec start (List.length lines)); [| lia].
    unfold bind at 1. unfold Io.print, Io.emit.
    destruct (Nat.leb_spec (List.length lines) (start + 60)); [lia |].
    unfold bind, Io.input. cbn [stdin Io.with_console]. rewrite Hin.
    unfold goes_on in Hq. apply negb_false_iff in Hq. rewrite Hq.
    unfold ret. cbn [stdout Io.with_console]. rewrite console_twice.
    now rewrite <- !app_assoc.
  - destruct fuel as [| fuel]; [inversion Hf |]. simpl in *.
    apply andb_true_iff in Hgo as [Ha Ht].
    destruct (Nat.ltb_spec start (List.length lines)); [| lia].
    unfold bind at 1. unfold Io.print, Io.emit.
    destruct (Nat.leb_spec (List.length lines) (start + 60)); [lia |].
    unfold bind at 1. unfold Io.input at 1. cbn [stdin Io.with_console].
    rewrite Hin. cbn [app]. unfold goes_on in Ha.
    apply negb_true_iff in Ha. rewrite Ha.
    rewrite (IH fuel (start + 60) _ quit rest); try reflexivity;
      try assumption; try lia.
    cbn [stdout Io.with_console]. rewrite console_twice, console_twice.
    now rewrite <- !app_assoc.
Qed.


End PreviewFacts.

Section PreviewMore.

Variable P : Platform.
Variable D : Desktop.

(** The preview is its heading, the text, and the closing pause. *)
Lemma show_code_preview_parts (cfg : dict) (sp : path) (w : world) :
  show_code_preview P D cfg sp w =
  (preview_text P D cfg sp ;;; pause pause_msg) (after_heading sp w).
Proof.
  unfold show_code_preview.
  do 4 (erewrite bind_ret by reflexivity).
  unfold after_heading. cbn [stdin stdout Io.with_console].
  rewrite !PreviewFacts.console_twice.
  now rewrite <- !app_assoc.
Qed.

(** The text part when the file is read and the limit is a number. *)
Lemma preview_text_read (cfg : dict) (sp : path) (w1 w2 : world)
    (text : string) (limit : Z) :
  read_text_of D sp w1 = Ret text w2 ->
  Py.int (int_of_str P) (Dict.get cfg "code_preview_lines" (JInt 200))
    = Ok limit ->
  preview_text P D cfg sp w1 =
  try_except
    ((if (Z.of_nat (List.length (splitlines D text)) <=? limit)%Z
      then Io.print text
      else preview_pages (List.length (splitlines D text))
             (splitlines D text) 0) ;;;
     Io.print (nl ++ rule60))
    any_exception
    (fun e => Io.print (preview_error P e))
    w2.
Proof.
  intros Hread Hint. unfold preview_text, try_except.
  rewrite (bind_ret _ _ _ _ _ Hread). rewrite Hint. reflexivity.
Qed.


(** X28. A failure while the text is prepared does not leave
    [show_code_preview]: when reading raises, or when [int] rejects
    [code_preview_lines], the message of the handler is printed (the
    not-found message for [FileNotFoundError]), nothing of the file is
    shown, and the function pauses and returns. *)
Theorem show_code_preview_reports_failures
    (cfg : dict) (sp : path) (w w2 : world) (e : exn) (enter : string)
    (rest : list string) :
  read_text_of D sp (after_heading sp w) = Raise e w2 \/
  (exists text,
      read_text_of D sp (after_heading sp w) = Ret text w2 /\
      Py.int (int_of_str P) (Dict.get cfg "code_preview_lines" (JInt 200))
        = Err e) ->
  stdin w2 = enter :: rest ->
  show_code_preview P D cfg sp w =
  Ret tt (Io.with_console rest
            (stdout w2 ++ [Printed (preview_error P e); Asked pause_msg]) w2).
Proof.
  intros Hfail Hin. rewrite show_code_preview_parts.
  assert (Htext : preview_text P D cfg sp (after_heading sp w) =
                  Io.print (preview_error P e) w2).
  { unfold preview_text, try_except, bind.
    destruct Hfail as [Hread | (text & Hread & Hint)]; rewrite Hread.
    - reflexivity.
    - rewrite Hint. reflexivity. }
  unfold bind at 1. rewrite Htext.
  unfold Io.print, Io.emit, pause, bind, Io.input, ret.
  cbn [stdin stdout Io.with_console]. rewrite Hin.
  rewrite !PreviewFacts.console_twice. now rewrite <- !app_assoc.
Qed.


(** X30. The answer [q] (in any letter case, between blanks) at a prompt
    ends the paging: the pages shown so far and the prompt are followed
    at once by the closing rule and the pause, and the later pages are
    not printed. *)
Theorem show_code_preview_quits_on_q
    (cfg : dict) (sp : path) (w w2 : world) (text quit enter : string)
    (answers rest : list string) (limit : Z) :
  read_text_of D sp (after_heading sp w) = Ret text w2 ->
  Py.int (int_of_str P) (Dict.get cfg "code_preview_lines" (JInt 200))
    = Ok limit ->
  (limit < Z.of_nat (List.length (splitlines D text)))%Z ->
  stdin w2 = (answers ++ quit :: enter :: rest)%list ->
  forallb goes_on answers = true ->
  goes_on quit = false ->
  60 * S (List.length answers) < List.length (splitlines D text) ->
  show_code_preview P D cfg sp w =
  Ret tt (Io.with_console rest
            (stdout w2
             ++ paged (splitlines D text) 0 answers
             ++ [Asked more_prompt; Printed (nl ++ rule60); Asked pause_msg])
            w2).
Proof.
  intros Hread Hint Hlong Hin Hgo Hq Hlo.
  rewrite show_code_preview_parts. unfold bind at 1.
  rewrite (preview_text_read cfg sp _ w2 text limit Hread Hint).
  destruct (Z.leb_spec (Z.of_nat (List.length (splitlines D text))) limit);
    [lia |].
  unfold try_except. unfold bind at 1.
  rewrite (PreviewFacts.preview_pages_quit (splitlines D text) answers
             _ 0 w2 quit (enter :: rest) Hin Hgo Hq) by lia.
  unfold bind, Io.print, Io.emit, pause, bind, Io.input, ret.
  cbn [stdin stdout Io.with_console].
  rewrite !PreviewFacts.console_twice. now rewrite <- !app_assoc.
Qed.

End PreviewMore.

(** ** The further properties on the sample installation *)

(** X3 with a limit of -1 on three stored entries: the new path goes to
    the front and the last entry is dropped. *)
Lemma add_recent_nonpositive_limit_witness :
  let cfg := Dict.set "recent_limit" (JInt (-1)) Sample.cfg in
  usable (state_file Sample.three_recent) = true /\
  Py.int (int_of_str Sample.platform) (Dict.get cfg "recent_limit" (JInt 15))
    = Ok (-1)%Z /\
  (-1 <= 0)%Z /\
  exists w1,
    add_recent Sample.platform cfg ["x.py"] Sample.three_recent = Ret tt w1 /\
    recent_of w1 = Some (JArr [JStr "/home/u/x.py";
                               JStr "/home/u/Unidad 1/gone.py";
                               JStr "/home/u/Unidad 1/a.py"]).
Proof.
  intros cfg.
  assert (Hle : (-1 <= 0)%Z) by discriminate.
  destruct (add_recent_nonpositive_limit Sample.platform cfg ["x.py"]
              Sample.three_recent
              [JStr "/home/u/Unidad 1/gone.py"; JStr "/home/u/Unidad 1/a.py";
               JStr "/home/u/Unidad 1/b.py"]
              (-1) eq_refl eq_refl eq_refl Hle) as (w1 & Hrun & _ & Hneg).
  split; [reflexivity |]. split; [reflexivity |]. split; [exact Hle |].
  exists w1. split; [exact Hrun |]. rewrite Hneg by reflexivity. reflexivity.
Defined.

(** X4 with [recent_limit] set to null. *)
Lemma add_recent_raises_before_writing_witness :
  let cfg := Dict.set "recent_limit" JNull Sample.cfg in
  recent_of Sample.start = Some (JArr []) /\
  Py.int (int_of_str Sample.platform) (Dict.get cfg "recent_limit" (JInt 15))
    = Err TypeError /\
  add_recent Sample.platform cfg ["x.py"] Sample.start
    = Raise TypeError Sample.start.
Proof.
  intros cfg. split; [reflexivity |]. split; [reflexivity |].
  apply (add_recent_raises_before_writing Sample.platform cfg ["x.py"]
           Sample.start TypeError).
  right. split; [exists []; reflexivity | reflexivity].
Defined.

(** X5 on the state with three favourites. *)
Lemma add_recent_keeps_the_rest_witness :
  usable (state_file Cases.three_favorites) = true /\
  recent_of Cases.three_favorites = Some (JArr []) /\
  Py.int (int_of_str Sample.platform)
    (Dict.get Sample.cfg "recent_limit" (JInt 15)) = Ok 15%Z /\
  exists w1,
    add_recent Sample.platform Sample.cfg ["x.py"] Cases.three_favorites
      = Ret tt w1 /\
    favorites_of w1 = favorites_of Cases.three_favorites /\
    config_file w1 = Absent true /\
    journal w1 = [].
Proof.
  destruct (add_recent_keeps_the_rest Sample.platform Sample.cfg ["x.py"]
              Cases.three_favorites [] 15 eq_refl eq_refl eq_refl)
    as (w1 & Hrun & _ & Hfav & Hcf & Hj & _).
  repeat (split; [reflexivity |]).
  exists w1. repeat split; assumption.
Defined.

(** X6 on the state with three recent scripts. *)
Lemma toggle_favorite_keeps_the_rest_witness :
  usable (state_file Sample.three_recent) = true /\
  favorites_of Sample.three_recent = Some (JArr []) /\
  exists w1,
    toggle_favorite Sample.platform ["x.py"] Sample.three_recent = Ret true w1 /\
    recent_of w1 = recent_of Sample.three_recent.
Proof.
  destruct (toggle_favorite_keeps_the_rest Sample.platform ["x.py"]
              Sample.three_recent [] eq_refl eq_refl)
    as (b & w1 & Hrun & Hb & _ & Hrec & _).
  repeat (split; [reflexivity |]).
  exists w1. split; [| exact Hrec]. rewrite Hrun, Hb. reflexivity.
Defined.

(** X7 on the state with three favourites. *)
Lemma toggle_twice_restores_witness :
  usable (state_file Cases.three_favorites) = true /\
  existsb (Py.is_str (resolved Sample.platform ["x.py"]))
    [JStr "/home/u/Unidad 1/gone.py"; JStr "/home/u/Unidad 1/b.py";
     JStr "/home/u/Unidad 1/a.py"] = false /\
  exists w1 w2,
    toggle_favorite Sample.platform ["x.py"] Cases.three_favorites = Ret true w1 /\
    toggle_favorite Sample.platform ["x.py"] w1 = Ret false w2 /\
    state_of w2 = state_of Cases.three_favorites.
Proof.
  repeat (split; [reflexivity |]).
  exact (toggle_twice_restores Sample.platform ["x.py"] Cases.three_favorites
           [JStr "/home/u/Unidad 1/gone.py"; JStr "/home/u/Unidad 1/b.py";
            JStr "/home/u/Unidad 1/a.py"] eq_refl eq_refl eq_refl).
Defined.

(** X8 on a favourites list that holds a list. *)
Lemma is_favorite_needs_hashable_witness :
  usable (state_file Cases.odd_favorites) = true /\
  favorites_of Cases.odd_favorites = Some (JArr [JArr []]) /\
  forallb Py.hashable [JArr []] = false /\
  is_favorite Sample.platform ["x.py"] Cases.odd_favorites
    = Raise TypeError Cases.odd_favorites /\
  exists b w1,
    toggle_favorite Sample.platform ["x.py"] Cases.odd_favorites = Ret b w1.
Proof.
  do 3 (split; [reflexivity |]).
  exact (is_favorite_needs_hashable Sample.platform ["x.py"] Cases.odd_favorites
           [JArr []] eq_refl eq_refl eq_refl).
Defined.

(** X9 on the complete configuration. *)
Lemma load_config_complete_is_unchanged_witness :
  config_file (Cases.with_config true Cases.complete)
    = Present true true (Dumped (JObj Cases.complete)) /\
  Dict.lookup "base_dir" Cases.complete = Some (JStr "/home/u") /\
  Path.to_string (resolve Sample.platform
                    (expanduser Sample.platform (Path.of_string "/home/u")))
    = "/home/u" /\
  (forall k, In k (Dict.keys (default_config (script_dir Sample.platform))) ->
             Dict.has k Cases.complete = true) /\
  exists w',
    load_or_create_config Sample.platform (Cases.with_config true Cases.complete)
      = Ret Cases.complete w' /\
    config_file w' = Present true true (Dumped (JObj Cases.complete)).
Proof.
  assert (Hall : forall k,
             In k (Dict.keys (default_config (script_dir Sample.platform))) ->
             Dict.has k Cases.complete = true).
  { intros k Hk. simpl in Hk.
    repeat (destruct Hk as [<- | Hk]; [reflexivity |]). destruct Hk. }
  destruct (load_config_complete_is_unchanged Sample.platform
              (Cases.with_config true Cases.complete) true Cases.complete
              "/home/u" eq_refl eq_refl eq_refl Hall)
    as (w' & Hrun & Hcf & _).
  repeat (split; [reflexivity |]). split; [exact Hall |].
  exists w'. split; assumption.
Defined.





(** X14 on the sample unit: every hit for [A] is a file whose name
    contains [a]. *)
Lemma search_hits_are_matching_scripts_witness :
  Py.set (Dict.get Sample.cfg "ignore_dirs" (JArr [])) = Ok Sample.default_ignore /\
  exists hits,
    search_scripts Sample.cfg Sample.unit1 "A" Sample.start
      = Ret hits Sample.start /\
    forall p, In p hits ->
      is_file_at Sample.start p = true /\
      Str.contains (Str.lower (Path.name p)) "a" = true.
Proof.
  split; [reflexivity |].
  destruct (search_hits_are_matching_scripts Sample.cfg Sample.unit1 "A"
              Sample.start Sample.default_ignore eq_refl)
    as (hits & Hrun & _ & Hall).
  exists hits. split; [exact Hrun |].
  intros p Hp. destruct (Hall p Hp) as (_ & Hf & _ & _ & Hq).
  split; [exact Hf | exact Hq].
Defined.

(** X15 on the sample unit: [A], [a] and [A] between blanks. *)
Lemma search_normalises_the_query_witness :
  Str.blank " " = true /\
  search_scripts Sample.cfg Sample.unit1 "a" Sample.start
    = search_scripts Sample.cfg Sample.unit1 "A" Sample.start /\
  search_scripts Sample.cfg Sample.unit1 " A " Sample.start
    = search_scripts Sample.cfg Sample.unit1 "A" Sample.start.
Proof.
  split; [reflexivity |].
  exact (search_normalises_the_query Sample.cfg Sample.unit1 "A" " " " "
           Sample.start eq_refl eq_refl).
Defined.

(** X16 with [ignore_dirs] set to a number. *)
Lemma search_raises_on_bad_ignore_dirs_witness :
  let cfg := Dict.set "ignore_dirs" (JInt 3) Sample.cfg in
  Py.set (Dict.get cfg "ignore_dirs" (JArr [])) = Err TypeError /\
  search_scripts cfg Sample.unit1 "a" Sample.start
    = Raise TypeError Sample.start.
Proof.
  intros cfg. split; [reflexivity |].
  exact (proj2 (search_raises_on_bad_ignore_dirs cfg Sample.unit1 "a"
                  Sample.start TypeError eq_refl)).
Defined.

(** X17 on a unit path that is a regular file. *)
Lemma search_of_no_directory_is_empty_witness :
  Py.set (Dict.get Sample.cfg "ignore_dirs" (JArr [])) = Ok Sample.default_ignore /\
  (forall entries,
      Fs.stat (root Sample.start) (cwd Sample.start) Cases.a_py
        <> Ok (Dir true entries)) /\
  search_scripts Sample.cfg Cases.a_py "a" Sample.start = Ret [] Sample.start.
Proof.
  assert (Hno : forall entries,
             Fs.stat (root Sample.start) (cwd Sample.start) Cases.a_py
               <> Ok (Dir true entries)).
  { intros entries H. vm_compute in H. discriminate H. }
  split; [reflexivity |]. split; [exact Hno |].
  exact (search_of_no_directory_is_empty Sample.cfg Cases.a_py "a" Sample.start
           Sample.default_ignore eq_refl Hno).
Defined.

(** X18 on three stored favourites, the first of which is gone. *)
Lemma get_favorite_scripts_lists_existing_witness :
  let stored := ["/home/u/Unidad 1/gone.py"; "/home/u/Unidad 1/b.py";
                 "/home/u/Unidad 1/a.py"] in
  favorites_of Cases.three_favorites = Some (JArr (map JStr stored)) /\
  Forall (fun s => refused Cases.three_favorites (Path.of_string s) = false)
         stored /\
  exists out,
    get_favorite_scripts Cases.three_favorites = Ret out Cases.three_favorites /\
    Permutation out [Cases.b_py; Cases.a_py] /\
    Sorted by_name out.
Proof.
  intros stored.
  assert (Hok : Forall (fun s => refused Cases.three_favorites
                                   (Path.of_string s) = false) stored)
    by (repeat constructor).
  split; [reflexivity |]. split; [exact Hok |].
  exact (get_favorite_scripts_lists_existing Cases.three_favorites stored
           eq_refl Hok).
Defined.

(** X20 on the sample installation: the answer [s], no arguments. *)
Lemma run_script_records_then_launches_witness :
  let w := Cases.answering ["s"; ""; ""] in
  Py.truthy (Dict.get Sample.cfg "confirm_before_run" (JBool true)) = true /\
  Py.truthy (Dict.get Sample.cfg "ask_args_before_run" (JBool true)) = true /\
  String.eqb (Str.lower (Str.strip "s")) "s" = true /\
  Str.blank "" = true /\
  usable (state_file w) = true /\
  recent_of w = Some (JArr []) /\
  Py.int (int_of_str Sample.platform)
    (Dict.get Sample.cfg "recent_limit" (JInt 15)) = Ok 15%Z /\
  exists w3 w',
    recent_of w3 = Some (JArr [JStr "/home/u/Unidad 1/a.py"]) /\
    run_script Sample.platform Sample.cfg Cases.a_py w = Ret (Completed 0) w' /\
    state_file w' = state_file w3 /\
    stdin w' = [].
Proof.
  intros w.
  destruct (run_script_records_then_launches Sample.platform Sample.cfg
              Cases.a_py w "s" "" [""] [] 15
              eq_refl eq_refl eq_refl eq_refl eq_refl eq_refl eq_refl eq_refl)
    as (w3 & Hrec & Hin & _ & _ & Hrun).
  repeat (split; [reflexivity |]).
  exists w3. eexists. split; [exact Hrec |].
  rewrite Hrun. cbn [subprocess_run Sample.platform ret].
  unfold bind, Io.print, Io.emit, pause, bind, Io.input, ret.
  cbn [stdin stdout Io.with_console]. rewrite Hin.
  split; [reflexivity |]. split; reflexivity.
Defined.

(** X21 on the sample installation: [a.py] relative to the home
    directory. *)
Lemma relpath_str_below_base_witness :
  resolve Sample.platform Sample.home <> [] /\
  resolve Sample.platform Cases.a_py
    = (resolve Sample.platform Sample.home ++ ["Unidad 1"; "a.py"])%list /\
  relpath_str Sample.platform Cases.a_py Sample.home = "Unidad 1/a.py" /\
  relpath_str Sample.platform Sample.home Sample.home = ".".
Proof.
  assert (Hne : resolve Sample.platform Sample.home <> []) by discriminate.
  split; [exact Hne |]. split; [reflexivity |].
  exact (relpath_str_below_base Sample.platform Cases.a_py Sample.home
           ["Unidad 1"; "a.py"] Hne eq_refl).
Defined.

(** X23 with [preferred_editor] set to a number. *)
Lemma open_in_editor_needs_a_string_witness :
  let cfg := Dict.set "preferred_editor" (JInt 1) Sample.cfg in
  Py.truthy (Dict.get cfg "preferred_editor" JNull) = true /\
  (forall s, Dict.get cfg "preferred_editor" JNull <> JStr s) /\
  open_in_editor Sample.platform Cases.desktop cfg Cases.a_py Sample.start
    = Raise AttributeError Sample.start.
Proof.
  intros cfg.
  assert (Hns : forall s, Dict.get cfg "preferred_editor" JNull <> JStr s)
    by (intros s H; discriminate H).
  split; [reflexivity |]. split; [exact Hns |].
  exact (open_in_editor_needs_a_string Sample.platform Cases.desktop cfg
           Cases.a_py Sample.start eq_refl Hns).
Defined.

(** X24 with an editor of two blanks. *)
Lemma open_in_editor_default_opener_witness :
  let cfg := Dict.set "preferred_editor" (JStr "  ") Sample.cfg in
  Dict.get cfg "preferred_editor" JNull = JStr "  " /\
  Str.blank "  " = true /\
  os_nt Cases.desktop = false /\
  exists w1,
    log_event Sample.platform cfg
      ("OPEN_EDITOR " ++ Path.to_string Cases.a_py) Sample.start = Ret tt w1 /\
    open_in_editor Sample.platform Cases.desktop cfg Cases.a_py Sample.start
      = Ret tt w1.
Proof.
  intros cfg.
  destruct (open_in_editor_default_opener Sample.platform Cases.desktop cfg
              Cases.a_py Sample.start
              (or_intror (ex_intro _ "  " (conj eq_refl eq_refl))) eq_refl)
    as (w1 & Hlog & Hrun).
  repeat (split; [reflexivity |]).
  exists w1. split; [exact Hlog |]. rewrite Hrun. reflexivity.
Defined.

(** X25 with the default editor command. *)
Lemma open_in_editor_reports_failures_witness :
  editor_command Sample.cfg = Ok "code -n" /\
  exists w2,
    open_in_editor Sample.platform Cases.desktop Sample.cfg Cases.a_py
      Sample.start = Ret tt w2.
Proof.
  split; [reflexivity |].
  destruct (open_in_editor_reports_failures Sample.platform Cases.desktop
              Sample.cfg Cases.a_py Sample.start "code -n" eq_refl)
    as [(w1 & Hlog & Hrun) _].
  exists w1. exact (Hrun ["code -n"] eq_refl eq_refl w1 eq_refl).
Defined.



(** X28 on a script that is gone. *)
Lemma show_code_preview_reports_failures_witness :
  let w := Cases.answering [""] in
  let w2 := after_heading Cases.gone_py w in
  read_text_of Cases.desktop Cases.gone_py w2 = Raise FileNotFoundError w2 /\
  show_code_preview Sample.platform Cases.desktop Sample.cfg Cases.gone_py w =
  Ret tt (Io.with_console []
            (stdout w2
             ++ [Printed "El archivo no se encontró."; Asked pause_msg])
            w2).
Proof.
  intros w w2. split; [reflexivity |].
  exact (show_code_preview_reports_failures Sample.platform Cases.desktop
           Sample.cfg Cases.gone_py w w2 FileNotFoundError "" []
           (or_introl eq_refl) eq_refl).
Defined.


(** X30 on the same script: [Q] between blanks at the second prompt. *)
Lemma show_code_preview_quits_on_q_witness :
  let cfg := Dict.set "code_preview_lines" (JInt 100) Sample.cfg in
  let w := Cases.answering [""; " Q "; ""] in
  let w2 := after_heading Cases.b_py w in
  let lines := splitlines Cases.desktop Cases.long_text in
  read_text_of Cases.desktop Cases.b_py w2 = Ret Cases.long_text w2 /\
  (100 < Z.of_nat (List.length lines))%Z /\
  goes_on "" = true /\
  goes_on " Q " = false /\
  60 * 2 < List.length lines /\
  show_code_preview Sample.platform Cases.desktop cfg Cases.b_py w =
    Ret tt (Io.with_console []
              (stdout w2
               ++ paged lines 0 [""]
               ++ [Asked more_prompt; Printed (nl ++ rule60); Asked pause_msg])
              w2).
Proof.
  intros cfg w w2 lines.
  assert (Hlong : (100 < Z.of_nat (List.length lines))%Z)
    by (apply Z.ltb_lt; vm_compute; reflexivity).
  assert (Hlo : 60 * 2 < List.length lines)
    by (apply Nat.ltb_lt; vm_compute; reflexivity).
  split; [reflexivity |]. split; [exact Hlong |]. split; [reflexivity |].
  split; [reflexivity |]. split; [exact Hlo |].
  exact (show_code_preview_quits_on_q Sample.platform Cases.desktop cfg
           Cases.b_py w w2 Cases.long_text " Q " "" [""] [] 100
           eq_refl eq_refl Hlong eq_refl eq_refl eq_refl Hlo).
Defined.
